(** * Financial Document Analyzer: the upload handler and its tools

    A shallow embedding of [main.py] (the [/health] and [/analyze]
    endpoints, [run_crew]) and of [tools.py] (the PDF text reader and the
    two template helpers), with the properties the specification states
    about them.

    Python values are modelled as follows.
    - [str] is [string]; a character is a code point below 256, so the
      case mapping and the white space test are Python's restricted to
      that range.
    - [bytes] is [list byte].
    - The disk is a finite map from paths to file contents together with a
      set of directories; the process environment is a finite map.
    - Everything the handler cannot decide by itself (the identifier drawn
      by [uuid.uuid4], failures of system calls, what other processes do to
      the disk, the agent framework) is read from a [world] record.
    - Code that can raise runs in a state-and-exception monad [M]. *)

From Stdlib Require Import ZArith Ascii String List Lia.
From Stdlib.Strings Require Import Byte.
From stdpp Require Import base gmap strings list pretty.

Local Open Scope string_scope.
Local Open Scope list_scope.
Local Open Scope Z_scope.

(** ** Python [str] operations *)

Module PyStr.

(** [str.isspace] on one code point (CPython's [_PyUnicode_IsWhitespace],
    range 0..255): TAB..CR, FS..US, SPACE, NEL and NBSP. *)
Definition isspace (c : ascii) : bool :=
  let n := N_of_ascii c in
  ((9 <=? n) && (n <=? 13) || (28 <=? n) && (n <=? 31)
   || (n =? 32) || (n =? 133) || (n =? 160))%N.

(** [str.lower] on one code point: A..Z and the Latin-1 capitals
    (all of 192..222 but the multiplication sign 215) move up by 32. *)
Definition lower_char (c : ascii) : ascii :=
  let n := N_of_ascii c in
  if ((65 <=? n) && (n <=? 90)
      || (192 <=? n) && (n <=? 222) && negb (n =? 215))%N
  then ascii_of_N (n + 32) else c.

Fixpoint lower (s : string) : string :=
  match s with
  | EmptyString => EmptyString
  | String c r => String (lower_char c) (lower r)
  end.

(** [s.endswith(suffix)]: some tail of [s] is [suffix]. *)
Fixpoint endswith (s suffix : string) : bool :=
  String.eqb s suffix
  || match s with
     | EmptyString => false
     | String _ r => endswith r suffix
     end.

(** [sub in s]: [sub] starts at some position of [s]. *)
Fixpoint contains (sub s : string) : bool :=
  String.prefix sub s
  || match s with
     | EmptyString => false
     | String _ r => contains sub r
     end.

Fixpoint lstrip (s : string) : string :=
  match s with
  | EmptyString => EmptyString
  | String c r => if isspace c then lstrip r else s
  end.

Fixpoint rstrip (s : string) : string :=
  match s with
  | EmptyString => EmptyString
  | String c r =>
      let r' := rstrip r in
      if isspace c && String.eqb r' EmptyString then EmptyString
      else String c r'
  end.

(** [s.strip()] with no argument. *)
Definition strip (s : string) : string := rstrip (lstrip s).

(** Every character is white space (true of the empty string). *)
Fixpoint all_space (s : string) : bool :=
  match s with
  | EmptyString => true
  | String c r => isspace c && all_space r
  end.

Fixpoint drop (n : nat) (s : string) : string :=
  match n, s with
  | O, _ => s
  | S _, EmptyString => EmptyString
  | S k, String _ r => drop k r
  end.

(** [s.replace(old, new)] for a non-empty [old]: scan from the left,
    replace each occurrence and resume after it.  The scan consumes at
    least one character per step, so [S (length s)] steps suffice. *)
Fixpoint replace_go (steps : nat) (old new s : string) : string :=
  match steps with
  | O => s
  | S k =>
      if String.prefix old s
      then new +:+ replace_go k old new (drop (String.length old) s)
      else match s with
           | EmptyString => EmptyString
           | String c r => String c (replace_go k old new r)
           end
  end.

Definition replace (old new s : string) : string :=
  replace_go (S (String.length s)) old new s.

(** [sep.join(parts)]. *)
Fixpoint join (sep : string) (parts : list string) : string :=
  match parts with
  | [] => ""
  | [p] => p
  | p :: rest => p +:+ sep +:+ join sep rest
  end.

(** Truth value of a [str]: non-empty. *)
Definition truthy (s : string) : bool := negb (String.eqb s "").

(** Truth value of an [Optional[str]]: [None] and [""] are false. *)
Definition truthy_opt (o : option string) : bool :=
  match o with
  | None => false
  | Some s => truthy s
  end.

End PyStr.

(** The line feed, Python's ["\n"]. *)
Definition nl : string := String (ascii_of_N 10) "".

(** ** Exceptions, results and the handler's monad *)

(** The exception classes the handlers of [main.py] tell apart.  All three
    are subclasses of Python's [Exception]: FastAPI's [HTTPException]
    (through Starlette's), [FileNotFoundError] (through [OSError]), and
    [Exception] itself, which also stands for every other subclass. *)
Inductive exn : Type :=
| HTTPException (status_code : Z) (detail : string)
| FileNotFoundError (msg : string)
| Exception (msg : string).

Inductive result (A : Type) : Type :=
| Ok (a : A)
| Raised (e : exn).
Arguments Ok {A} a.
Arguments Raised {A} e.

Inductive event : Type :=
| LogInfo (msg : string)
| LogWarning (msg : string)
| LogError (msg : string)
| OsMakedirs (path : string)
| OsOpenWb (path : string)
| OsWrite (path : string) (size : nat)
| OsRemove (path : string)
| CrewKickoff (query file_path : string).

(** What a request can observe and change: regular files with their
    contents, directories, the process environment, and the trace of log
    records, mutating system calls and pipeline runs, oldest first. *)
Record state : Type := mkState {
  files : gmap string (list byte);
  dirs : gset string;
  environ : gmap string string;
  log : list event
}.

(** What the handler cannot decide: one record per request. *)
Record world : Type := mkWorld {
  (** [str(uuid.uuid4())] *)
  uuid4 : string;
  (** failures of the system calls, [None] when the call succeeds *)
  makedirs_error : option exn;
  open_error : option exn;
  write_error : option exn;
  remove_error : option exn;
  (** what other processes do to the files between the save and the
      pipeline's own existence check *)
  other_processes : gmap string (list byte) → gmap string (list byte);
  (** [str(Crew(...).kickoff(inputs))] on query and path, or what it raises;
      the pipeline may touch the files *)
  crew_kickoff : string → string → gmap string (list byte) →
                 result string * gmap string (list byte);
  (** [open(path, 'rb')] and [PyPDF2.PdfReader] on the path, or what they
      raise.  The reader yields its pages one by one: fetching a page may
      raise, and so may [extract_text()] (with the [strip] test) on a page
      that was fetched. *)
  pdf_reader : string → result (list (result (result string)));
  (** [str(e)] of an [HTTPException] with this status and detail *)
  http_exception_str : Z → string → string
}.

Definition M (A : Type) : Type := state → result A * state.

Definition ret {A : Type} (a : A) : M A := fun st => (Ok a, st).

Definition raise {A : Type} (e : exn) : M A := fun st => (Raised e, st).

Definition bind {A B : Type} (m : M A) (k : A → M B) : M B :=
  fun st =>
    match m st with
    | (Ok a, st') => k a st'
    | (Raised e, st') => (Raised e, st')
    end.

(** The monad's operations under stdpp's notations [x ← m; k] and
    [m;; k]. *)
#[global] Instance M_ret : MRet M := @ret.
#[global] Instance M_bind : MBind M := fun A B k m => bind m k.

(** [try: body except Exception as e: handler(e)].  Every [exn] is an
    [Exception], so the clause catches whatever [body] raises. *)
Definition try_except {A : Type} (body : M A) (handler : exn → M A) : M A :=
  fun st =>
    match body st with
    | (Ok a, st') => (Ok a, st')
    | (Raised e, st') => handler e st'
    end.

(** [try: body finally: cleanup].  The clean-up runs on both exits; the
    outcome of [body] stands unless the clean-up itself raises. *)
Definition try_finally {A : Type} (body : M A) (cleanup : M unit) : M A :=
  fun st =>
    let (r, st') := body st in
    match cleanup st' with
    | (Ok _, st'') => (r, st'')
    | (Raised e, st'') => (Raised e, st'')
    end.

Definition record (ev : event) (st : state) : state :=
  mkState (files st) (dirs st) (environ st) (log st ++ [ev]).

Definition emit (ev : event) : M unit := fun st => (Ok tt, record ev st).

Definition logger_info (msg : string) : M unit := emit (LogInfo msg).
Definition logger_warning (msg : string) : M unit := emit (LogWarning msg).
Definition logger_error (msg : string) : M unit := emit (LogError msg).

(** [str(e)]: the message the exception was built with; for an
    [HTTPException] whatever the framework's [__str__] gives. *)
Definition str_exn (w : world) (e : exn) : string :=
  match e with
  | HTTPException sc d => http_exception_str w sc d
  | FileNotFoundError m => m
  | Exception m => m
  end.

(** ** The operating system *)

Definition path_exists (st : state) (path : string) : bool :=
  bool_decide (is_Some (files st !! path)) || bool_decide (path ∈ dirs st).

Definition os_path_exists (path : string) : M bool :=
  fun st => (Ok (path_exists st path), st).

Definition os_getenv (name : string) : M (option string) :=
  fun st => (Ok (environ st !! name), st).

Definition set_files (f : gmap string (list byte)) (st : state) : state :=
  mkState f (dirs st) (environ st) (log st).

(** [os.makedirs(path, exist_ok=True)]: nothing to do for a directory that
    is there, [FileExistsError] when a regular file has the name. *)
Definition os_makedirs (w : world) (path : string) : M unit :=
  fun st0 =>
    let st := record (OsMakedirs path) st0 in
    if bool_decide (path ∈ dirs st) then (Ok tt, st)
    else if bool_decide (is_Some (files st !! path))
    then (Raised (Exception ("[Errno 17] File exists: '" +:+ path +:+ "'")), st)
    else match makedirs_error w with
         | Some e => (Raised e, st)
         | None => (Ok tt, mkState (files st) ({[path]} ∪ dirs st)
                                   (environ st) (log st))
         end.

(** [open(path, "wb")]: creates the file or truncates it. *)
Definition open_wb (w : world) (path : string) : M unit :=
  fun st0 =>
    let st := record (OsOpenWb path) st0 in
    match open_error w with
    | Some e => (Raised e, st)
    | None => (Ok tt, set_files (<[path := []]> (files st)) st)
    end.

(** [f.write(content)] on the file opened at [path]. *)
Definition f_write (w : world) (path : string) (content : list byte) : M unit :=
  fun st0 =>
    let st := record (OsWrite path (length content)) st0 in
    match write_error w with
    | Some e => (Raised e, st)
    | None => (Ok tt, set_files (<[path := content]> (files st)) st)
    end.

Definition os_remove (w : world) (path : string) : M unit :=
  fun st0 =>
    let st := record (OsRemove path) st0 in
    match remove_error w with
    | Some e => (Raised e, st)
    | None => (Ok tt, set_files (delete path (files st)) st)
    end.

(** Other processes get to run. *)
Definition yield_to_others (w : world) : M unit :=
  fun st => (Ok tt, set_files (other_processes w (files st)) st).

(** ** The libraries *)

(** The agent framework and the PDF library, as the world has them. *)
Definition kickoff (w : world) (query file_path : string) : M string :=
  fun st0 =>
    let st := record (CrewKickoff query file_path) st0 in
    let (r, f) := crew_kickoff w query file_path (files st) in
    (r, set_files f st).

Definition PdfReader (w : world) (path : string)
    : M (list (result (result string))) :=
  fun st => (pdf_reader w path, st).

(** The next page of the iteration, or what fetching it raises. *)
Definition next_page (next : result (result string)) : M (result string) :=
  fun st => (next, st).

Definition extract_text (page : result string) : M string :=
  fun st => (page, st).

(** ** tools.py *)

(** The loop over [enumerate(pdf_reader.pages)], with its own [try] around
    the body. *)
Fixpoint read_pages (w : world) (page_num : nat)
    (pages : list (result (result string))) (full_text : string) : M string :=
  match pages with
  | [] => ret full_text
  | next :: rest =>
      page ← next_page next;
      full_text ←
        try_except
          (text ← extract_text page;
           if PyStr.truthy (PyStr.strip text)
           then ret (full_text +:+ nl +:+ "--- Page " +:+ pretty (page_num + 1)%nat
                       +:+ " ---" +:+ nl +:+ text +:+ nl)
           else ret full_text)
          (fun e =>
             ret (full_text +:+ nl +:+ "--- Page " +:+ pretty (page_num + 1)%nat
                    +:+ " (Error reading) ---" +:+ nl));
      read_pages w (S page_num) rest full_text
  end.

(** [FinancialDocumentTool.read_data_tool] *)
Definition read_data_tool (w : world) (path : string) : M string :=
  try_except
    (found ← os_path_exists path;
     if negb found then ret ("Error: File not found at path: " +:+ path)
     else
       pages ← PdfReader w path;
       full_text ← read_pages w 0 pages "";
       if negb (PyStr.truthy (PyStr.strip full_text))
       then ret "Error: No readable text found in the PDF document"
       else
         let full_text :=
           PyStr.replace (nl +:+ nl +:+ nl) (nl +:+ nl) full_text in
         ret (PyStr.strip full_text))
    (fun e => ret ("Error reading PDF file: " +:+ str_exn w e)).

(** The [analysis] dictionary of the investment helper, in insertion
    order, which is the order [items()] yields. *)
Definition analysis_framework : list (string * string) :=
  [ ("revenue_analysis", "Revenue trends and growth patterns");
    ("profitability_metrics", "Profit margins and efficiency ratios");
    ("liquidity_assessment", "Cash flow and working capital analysis");
    ("debt_evaluation", "Debt levels and financial leverage");
    ("market_position", "Competitive positioning and market share") ].

Definition investment_error : string :=
  "Cannot analyze investment data due to document reading error".

(** [InvestmentTool.analyze_investment_tool] *)
Definition analyze_investment_tool (financial_document_data : string) : string :=
  if negb (PyStr.truthy financial_document_data)
     || PyStr.contains "Error" financial_document_data
  then investment_error
  else "Investment Analysis Framework Applied:" +:+ nl
       +:+ PyStr.join nl
             (map (fun kv => "- " +:+ fst kv +:+ ": " +:+ snd kv)
                  analysis_framework).

Definition risk_factors : list string :=
  [ "Market volatility and economic conditions";
    "Industry-specific risks and competition";
    "Financial leverage and debt service capability";
    "Regulatory and compliance risks";
    "Operational and management risks" ].

Definition risk_error : string :=
  "Cannot perform risk assessment due to document reading error".

(** [RiskTool.create_risk_assessment_tool] *)
Definition create_risk_assessment_tool (financial_document_data : string) : string :=
  if negb (PyStr.truthy financial_document_data)
     || PyStr.contains "Error" financial_document_data
  then risk_error
  else "Risk Assessment Framework:" +:+ nl
       +:+ PyStr.join nl (map (fun factor => "- " +:+ factor) risk_factors).

(** ** main.py *)

Definition default_query : string :=
  "Analyze this financial document for investment insights".

(** Lines 34 and 35 of [run_crew]: the default for an empty or blank
    query. *)
Definition crew_query (query : string) : string :=
  if negb (PyStr.truthy query) || String.eqb (PyStr.strip query) ""
  then default_query else query.

(** [run_crew] *)
Definition run_crew (w : world) (query file_path : string) : M string :=
  try_except
    (let query := crew_query query in
     found ← os_path_exists file_path;
     if negb found
     then raise (FileNotFoundError
                   ("Financial document not found at: " +:+ file_path))
     else
       logger_info ("Starting analysis for query: " +:+ query);;
       result ← kickoff w query file_path;
       logger_info "Analysis completed successfully";;
       ret result)
    (fun e =>
       logger_error ("Error in crew execution: " +:+ str_exn w e);;
       raise (Exception ("Analysis failed: " +:+ str_exn w e))).

(** The body of [GET /health]. *)
Record HealthReport : Type := mkHealth {
  health_status : string;
  data_directory : bool;
  required_env_vars : gmap string bool
}.

Definition health_check : M HealthReport :=
  data ← os_path_exists "data";
  openai ← os_getenv "OPENAI_API_KEY";
  serper ← os_getenv "SERPER_API_KEY";
  ret (mkHealth "healthy" data
         (<["OPENAI_API_KEY" := PyStr.truthy_opt openai]>
            (<["SERPER_API_KEY" := PyStr.truthy_opt serper]> ∅))).

Record UploadFile : Type := mkUpload {
  filename : string;
  (** the bytes [await file.read()] yields *)
  read : list byte
}.

Record AnalysisResult : Type := mkResult {
  status : string;
  query : string;
  analysis : string;
  file_processed : string;
  file_size : nat;
  processing_id : string
}.

(** [f"data/financial_document_{file_id}.pdf"] *)
Definition storage_path (file_id : string) : string :=
  "data/financial_document_" +:+ file_id +:+ ".pdf".

(** Lines 123 to 126 of [analyze_document]: the default for a missing,
    empty or blank query, then [strip]. *)
Definition clean_query (query : option string) : string :=
  let query :=
    match query with
    | None => default_query
    | Some q =>
        if negb (PyStr.truthy q) || String.eqb (PyStr.strip q) ""
        then default_query else q
    end in
  PyStr.strip query.

(** The [with open(file_path, "wb") as f] block. *)
Definition save_upload (w : world) (file : UploadFile) (file_path : string)
    : M (list byte) :=
  open_wb w file_path;;
  let content := read file in
  if Nat.eqb (length content) 0
  then raise (HTTPException 400 "Uploaded file is empty")
  else f_write w file_path content;; ret content.

(** The [try] block of [analyze_document]. *)
Definition analyze_try (w : world) (file : UploadFile) (query : option string)
    (file_id file_path : string) : M AnalysisResult :=
  os_makedirs w "data";;
  logger_info ("Processing uploaded file: " +:+ filename file);;
  content ← save_upload w file file_path;
  let query := clean_query query in
  logger_info ("Starting financial analysis with query: " +:+ query);;
  yield_to_others w;;
  analysis_result ← run_crew w query file_path;
  logger_info "Analysis completed successfully";;
  ret (mkResult "success" query analysis_result (filename file)
         (length content) file_id).

(** The two [except] clauses, tried in order. *)
Definition analyze_except (w : world) (e : exn) : M AnalysisResult :=
  match e with
  | FileNotFoundError _ =>
      logger_error ("File not found error: " +:+ str_exn w e);;
      raise (HTTPException 404 ("File processing error: " +:+ str_exn w e))
  | _ =>
      logger_error ("Error processing financial document: " +:+ str_exn w e);;
      raise (HTTPException 500
               ("Error processing financial document: " +:+ str_exn w e))
  end.

(** The [finally] block. *)
Definition cleanup (w : world) (file_path : string) : M unit :=
  found ← os_path_exists file_path;
  if found : bool
  then try_except
         (os_remove w file_path;;
          logger_info ("Cleaned up temporary file: " +:+ file_path))
         (fun cleanup_error =>
            logger_warning ("Failed to cleanup file " +:+ file_path +:+ ": "
                              +:+ str_exn w cleanup_error))
  else ret tt.

Definition invalid_file_type : exn :=
  HTTPException 400
    "Only PDF files are supported for financial document analysis".

(** [analyze_document], the handler of [POST /analyze]. *)
Definition analyze_document (w : world) (file : UploadFile)
    (query : option string) : M AnalysisResult :=
  if negb (PyStr.endswith (PyStr.lower (filename file)) ".pdf")
  then raise invalid_file_type
  else
    let file_id := uuid4 w in
    let file_path := storage_path file_id in
    try_finally
      (try_except (analyze_try w file query file_id file_path)
                  (analyze_except w))
      (cleanup w file_path).

(** The error body both exception handlers of the application build. *)
Record ErrorResult : Type := mkError {
  error : bool;
  status_code : Z;
  message : string;
  type : string
}.

Inductive response : Type :=
| Success (r : AnalysisResult)
| Failure (e : ErrorResult).

Definition http_exception_handler (sc : Z) (detail : string) : ErrorResult :=
  mkError true sc detail "HTTP Exception".

Definition general_exception_handler : ErrorResult :=
  mkError true 500 "Internal server error occurred" "Server Error".

(** What the client receives: the handler's return value, or the body
    the matching exception handler builds. *)
Definition respond (r : result AnalysisResult) : response :=
  match r with
  | Ok a => Success a
  | Raised (HTTPException sc detail) => Failure (http_exception_handler sc detail)
  | Raised _ => Failure general_exception_handler
  end.

(** The [query] form field: FastAPI passes the declared default when the
    request has no such field. *)
Definition form_query (field : option string) : option string :=
  match field with
  | None => Some default_query
  | Some q => Some q
  end.

Definition post_analyze (w : world) (file : UploadFile)
    (field : option string) (st : state) : response * state :=
  let (r, st') := analyze_document w file (form_query field) st in
  (respond r, st').

(** ** The environment checks of tools.py, agents.py and main.py *)

(** The list each of the three files spells out. *)
Definition required_vars : list string := ["OPENAI_API_KEY"; "SERPER_API_KEY"].

(** The loop at the top of tools.py: it raises [EnvironmentError], a
    subclass of [Exception], at the first variable that is missing or
    empty. *)
Fixpoint check_env_vars (vars : list string) : M unit :=
  match vars with
  | [] => ret tt
  | var :: rest =>
      v ← os_getenv var;
      if negb (PyStr.truthy_opt v)
      then raise (Exception ("Missing required environment variable: " +:+ var))
      else check_env_vars rest
  end.

Definition tools_import : M unit := check_env_vars required_vars.

(** [[var for var in vars if not os.getenv(var)]] *)
Fixpoint missing_env_vars (vars : list string) : M (list string) :=
  match vars with
  | [] => ret []
  | var :: rest =>
      v ← os_getenv var;
      missing ← missing_env_vars rest;
      ret (if negb (PyStr.truthy_opt v) then var :: missing else missing)
  end.

(** [validate_environment] of agents.py *)
Definition validate_environment : M unit :=
  missing ← missing_env_vars required_vars;
  match missing with
  | [] => ret tt
  | _ :: _ =>
      raise (Exception ("Missing required environment variables: "
                          +:+ PyStr.join ", " missing))
  end.

(** How the [__main__] block of main.py ends: [exit(code)] after the
    lines it printed, or the call of [uvicorn.run]. *)
Inductive startup : Type :=
| Exit (code : Z) (printed : list string)
| Serve.

(** The [__main__] block of main.py. *)
Definition main_startup (w : world) : M startup :=
  missing_vars ← missing_env_vars required_vars;
  match missing_vars with
  | _ :: _ =>
      logger_error ("Missing required environment variables: "
                      +:+ PyStr.join ", " missing_vars);;
      ret (Exit 1
             ("Please set up your .env file with the required API keys:"
                :: map (fun var => "  " +:+ var +:+ "=your_api_key_here")
                     missing_vars))
  | [] =>
      os_makedirs w "data";;
      logger_info "Starting Financial Document Analyzer API...";;
      ret Serve
  end.

(** * Vocabulary of the properties *)

(** Every event a computation adds to the trace satisfies [P]. *)
Definition emits {A : Type} (P : event → Prop) (m : M A) : Prop :=
  ∀ st, ∃ evs, log (snd (m st)) = log st ++ evs ∧ Forall P evs.

(** The value a computation returns, when it returns, satisfies [Q]. *)
Definition returns {A : Type} (Q : A → Prop) (m : M A) : Prop :=
  ∀ st a st', m st = (Ok a, st') → Q a.

(** The event, if it is a run of the pipeline, is a run on query [q0]. *)
Definition runs_pipeline_with (q0 : string) (ev : event) : Prop :=
  match ev with
  | CrewKickoff q _ => q = q0
  | _ => True
  end.

(** The event is not a system call on the file at [path]. *)
Definition leaves_alone (path : string) (ev : event) : Prop :=
  match ev with
  | OsOpenWb p | OsWrite p _ | OsRemove p => p ≠ path
  | _ => True
  end.

(** The query is missing, empty or blank. *)
Definition blank (field : option string) : Prop :=
  match field with
  | None => True
  | Some q => PyStr.strip q = ""
  end.

(** The variable is set in the environment, to a value that is not empty. *)
Definition env_set (st : state) (name : string) : Prop :=
  ∃ v, environ st !! name = Some v ∧ v ≠ "".

(** The string is one of the extractor's error markers. *)
Definition starts_with_Error (s : string) : Prop :=
  String.prefix "Error" s = true.

(** The exception a computation raises, when it raises, satisfies [Q]. *)
Definition raises {A : Type} (Q : exn → Prop) (m : M A) : Prop :=
  ∀ st e st', m st = (Raised e, st') → Q e.

(** Every run of the computation takes a state to one related by [R]. *)
Definition preserves {A : Type} (R : state → state → Prop) (m : M A) : Prop :=
  ∀ st, R st (snd (m st)).

(** The exception is not a [FileNotFoundError]. *)
Definition not_file_not_found (e : exn) : Prop :=
  match e with
  | FileNotFoundError _ => False
  | _ => True
  end.

(** The event is not a call of [os.remove]. *)
Definition not_removal (ev : event) : Prop :=
  match ev with
  | OsRemove _ => False
  | _ => True
  end.

(** The event is a log record. *)
Definition is_log_record (ev : event) : Prop :=
  match ev with
  | LogInfo _ | LogWarning _ | LogError _ => True
  | _ => False
  end.

(** The environment is the same, no directory is gone, and no directory
    is new but, at most, the data directory. *)
Definition same_environment (st st' : state) : Prop :=
  environ st' = environ st
  ∧ dirs st ⊆ dirs st'
  ∧ dirs st' ⊆ {["data"]} ∪ dirs st.

(** Every file but the one at [path] is as it was. *)
Definition same_files_but (path : string) (st st' : state) : Prop :=
  ∀ p, p ≠ path → files st' !! p = files st !! p.

(** The page was fetched and [extract_text] gave text that is blank. *)
Definition blank_page (page : result (result string)) : Prop :=
  match page with
  | Ok (Ok text) => PyStr.strip text = ""
  | _ => False
  end.

(** The page was fetched, whatever [extract_text] does on it. *)
Definition fetched (page : result (result string)) : Prop :=
  match page with
  | Ok _ => True
  | Raised _ => False
  end.

(** The [HTTPException] the [except] clauses of [analyze_document] raise
    for an exception of the [try] block. *)
Definition handled (w : world) (e : exn) : exn :=
  match e with
  | FileNotFoundError _ =>
      HTTPException 404 ("File processing error: " +:+ str_exn w e)
  | _ =>
      HTTPException 500
        ("Error processing financial document: " +:+ str_exn w e)
  end.

(** Every character of the string passes the test. *)
Fixpoint all_chars (p : ascii → bool) (s : string) : bool :=
  match s with
  | EmptyString => true
  | String c r => p c && all_chars p r
  end.

(** The two strings have no character in common. *)
Definition disjoint_chars (s t : string) : bool :=
  all_chars (fun c => all_chars (fun d => negb (Ascii.eqb c d)) t) s.

(** No character of the string is white space. *)
Definition no_space (s : string) : bool :=
  all_chars (fun c => negb (PyStr.isspace c)) s.

(** The extractor has no text to give: the file is missing, opening or
    parsing it raises, fetching a page raises, or the pages hold nothing
    but white space. *)
Definition extraction_failed (w : world) (path : string) (st : state) : Prop :=
  path_exists st path = false
  ∨ (∃ e, pdf_reader w path = Raised e)
  ∨ (∃ pages, pdf_reader w path = Ok pages
              ∧ match fst (read_pages w 0 pages "" st) with
                | Raised _ => True
                | Ok full_text => PyStr.strip full_text = ""
                end).

(** Where every block of page text begins. *)
Definition page_marker : string := nl +:+ "--- Page ".

(** The page was fetched and [extract_text] raised on it. *)
Definition unreadable (page : result (result string)) : Prop :=
  ∃ e, page = Ok (Raised e).

(** The computation adds at most [n] events that pass the test. *)
Definition emits_at_most {A : Type} (n : nat) (p : event → bool) (m : M A)
    : Prop :=
  ∀ st, ∃ evs, log (snd (m st)) = log st ++ evs
               ∧ (length (List.filter p evs) ≤ n)%nat.

Definition is_kickoff (ev : event) : bool :=
  match ev with CrewKickoff _ _ => true | _ => false end.

Definition is_open (ev : event) : bool :=
  match ev with OsOpenWb _ => true | _ => false end.

Definition is_write (ev : event) : bool :=
  match ev with OsWrite _ _ => true | _ => false end.

Definition is_remove (ev : event) : bool :=
  match ev with OsRemove _ => true | _ => false end.

(** The required variables that are missing or empty, in order. *)
Definition missing_in (st : state) (vars : list string) : list string :=
  List.filter (fun var => negb (PyStr.truthy_opt (environ st !! var))) vars.

(** ** Sample worlds and uploads *)

(** A world in which every system call succeeds, nobody else touches the
    disk and the pipeline answers, and a small upload, to run the handler
    on. *)
Definition calm_world (file_id : string) : world :=
  mkWorld file_id None None None None (fun f => f)
    (fun q p f => (Ok ("Report on: " +:+ q), f))
    (fun _ => Ok [Ok (Ok "Revenue 10")])
    (fun sc d => pretty sc +:+ ": " +:+ d).

Definition sample_pdf : UploadFile := mkUpload "report.pdf" [x25; x50; x44; x46].

Definition empty_disk : state := mkState ∅ ∅ ∅ [].

(** Another process deletes every file of the data directory. *)
Definition sweeping_world (file_id : string) : world :=
  mkWorld file_id None None None None (fun _ => ∅)
    (fun q p f => (Ok ("Report on: " +:+ q), f))
    (fun _ => Ok [Ok (Ok "Revenue 10")])
    (fun sc d => pretty sc +:+ ": " +:+ d).

(** The pipeline raises a [FileNotFoundError] of its own. *)
Definition failing_world (file_id : string) : world :=
  mkWorld file_id None None None None (fun f => f)
    (fun q p f => (Raised (FileNotFoundError "model.bin is missing"), f))
    (fun _ => Ok [])
    (fun sc d => pretty sc +:+ ": " +:+ d).

(** * Properties *)

(** ** Strings *)

Example lower_PDF : PyStr.lower "Report.PDF" = "report.pdf".
Proof. reflexivity. Qed.

Example endswith_pdf : PyStr.endswith (PyStr.lower "Report.PDF") ".pdf" = true.
Proof. reflexivity. Qed.

Example endswith_txt : PyStr.endswith (PyStr.lower "report.txt") ".pdf" = false.
Proof. reflexivity. Qed.

Example strip_both : PyStr.strip ("  a b " +:+ nl) = "a b".
Proof. reflexivity. Qed.

Example contains_Error : PyStr.contains "Error" "An Error occurred" = true.
Proof. reflexivity. Qed.

Example replace_newlines :
  PyStr.replace (nl +:+ nl +:+ nl) (nl +:+ nl)
    ("a" +:+ nl +:+ nl +:+ nl +:+ nl +:+ "b" +:+ nl +:+ nl +:+ nl)
  = "a" +:+ nl +:+ nl +:+ nl +:+ "b" +:+ nl +:+ nl.
Proof. reflexivity. Qed.

Section StringFacts.
Import PyStr.

Lemma app_cons (c : ascii) (s t : string) :
  String c s +:+ t = String c (s +:+ t).
Proof. reflexivity. Qed.

Lemma all_space_app (s t : string) :
  all_space (s +:+ t) = all_space s && all_space t.
Proof.
  induction s as [|c s IH]; simpl; [reflexivity|].
  now rewrite IH, andb_assoc.
Qed.

Lemma all_space_lstrip (s : string) : all_space (lstrip s) = all_space s.
Proof.
  induction s as [|c s IH]; simpl; [reflexivity|].
  destruct (isspace c) eqn:Hc; simpl; [exact IH | now rewrite Hc].
Qed.

Lemma lstrip_head (s : string) :
  lstrip s = "" ∨ ∃ c r, lstrip s = String c r ∧ isspace c = false.
Proof.
  induction s as [|c s IH]; simpl; [now left|].
  destruct (isspace c) eqn:Hc; [exact IH | right; eauto].
Qed.

Lemma rstrip_empty (s : string) : rstrip s = "" ↔ all_space s = true.
Proof.
  induction s as [|c s IH]; simpl; [tauto|].
  destruct (isspace c) eqn:Hc; simpl.
  - destruct (String.eqb (rstrip s) "") eqn:He.
    + apply String.eqb_eq in He. tauto.
    + apply String.eqb_neq in He. split; [discriminate | tauto].
  - split; discriminate.
Qed.

Lemma strip_empty (s : string) : strip s = "" ↔ all_space s = true.
Proof. unfold strip. now rewrite rstrip_empty, all_space_lstrip. Qed.

Lemma strip_head (s : string) :
  strip s = "" ∨ ∃ c r, strip s = String c r ∧ isspace c = false.
Proof.
  unfold strip. destruct (lstrip_head s) as [->|(c & r & -> & Hc)].
  - now left.
  - right. exists c, (rstrip r). simpl. now rewrite Hc.
Qed.

(** A stripped string that is not empty is not blank either. *)
Lemma strip_strip_empty (s : string) : strip (strip s) = "" → strip s = "".
Proof.
  intros H. destruct (strip_head s) as [E|(c & r & E & Hc)]; [exact E|].
  rewrite E in H. apply strip_empty in H. simpl in H.
  rewrite Hc in H. discriminate.
Qed.

Lemma prefix_drop (old s : string) :
  String.prefix old s = true → s = old +:+ drop (String.length old) s.
Proof.
  revert s. induction old as [|a old IH]; intros s H; simpl.
  - now destruct s.
  - destruct s as [|b s]; simpl in H; [discriminate|].
    destruct (ascii_dec a b) as [->|]; [|discriminate].
    rewrite app_cons. f_equal. now apply IH.
Qed.

(** Replacing a blank pattern cannot remove the text of a string. *)
Lemma replace_go_text (old new : string) :
  all_space old = true →
  ∀ steps s, all_space s = false →
             all_space (replace_go steps old new s) = false.
Proof.
  intros Hold steps. induction steps as [|k IH]; intros s Hs; simpl; [exact Hs|].
  destruct (String.prefix old s) eqn:Hp.
  - rewrite all_space_app. apply andb_false_iff. right. apply IH.
    apply prefix_drop in Hp. rewrite Hp, all_space_app, Hold in Hs.
    exact Hs.
  - destruct s as [|c s]; simpl in *; [discriminate|].
    destruct (isspace c); simpl in *; [now apply IH | reflexivity].
Qed.

Lemma replace_text (old new s : string) :
  all_space old = true → all_space s = false →
  all_space (replace old new s) = false.
Proof. intros. now apply replace_go_text. Qed.

Lemma length_app (s t : string) :
  String.length (s +:+ t) = (String.length s + String.length t)%nat.
Proof. induction s as [|c s IH]; simpl; [reflexivity | now rewrite IH]. Qed.

Lemma app_inj_r (t s1 s2 : string) : s1 +:+ t = s2 +:+ t → s1 = s2.
Proof.
  revert s2. induction s1 as [|c s1 IH]; intros [|d s2] H; simpl in H.
  - reflexivity.
  - apply (f_equal String.length) in H. rewrite !length_app in H.
    simpl in H. lia.
  - apply (f_equal String.length) in H. rewrite !length_app in H.
    simpl in H. lia.
  - rewrite !app_cons in H. injection H as -> H. f_equal. now apply IH.
Qed.

(** The scan of [replace] has steps to spare. *)
Lemma drop_shorter (old s : string) :
  old ≠ "" → String.prefix old s = true →
  (String.length (PyStr.drop (String.length old) s) < String.length s)%nat.
Proof.
  intros Hold Hp. apply prefix_drop in Hp.
  rewrite Hp at 2. rewrite length_app.
  destruct old; [contradiction | simpl; lia].
Qed.

Lemma replace_go_enough (old new : string) :
  old ≠ "" →
  ∀ n m s, (String.length s < n)%nat → (String.length s < m)%nat →
           PyStr.replace_go n old new s = PyStr.replace_go m old new s.
Proof.
  intros Hold n. induction n as [|n IH]; intros m s Hn Hm; [lia|].
  destruct m as [|m]; [lia|]. simpl.
  destruct (String.prefix old s) eqn:Hp.
  - pose proof (drop_shorter old s Hold Hp). f_equal. apply IH; lia.
  - destruct s as [|c s]; [reflexivity|]. simpl in Hn, Hm.
    f_equal. apply IH; lia.
Qed.

(** [replace] is the scan's fixed point: it replaces an occurrence at the
    front and resumes after it, or keeps the first character and resumes
    behind it. *)
Lemma replace_unfold (old new s : string) :
  old ≠ "" →
  PyStr.replace old new s
  = if String.prefix old s
    then new +:+ PyStr.replace old new (PyStr.drop (String.length old) s)
    else match s with
         | EmptyString => EmptyString
         | String c r => String c (PyStr.replace old new r)
         end.
Proof.
  intros Hold. unfold PyStr.replace at 1. simpl.
  destruct (String.prefix old s) eqn:Hp.
  - pose proof (drop_shorter old s Hold Hp). f_equal.
    apply replace_go_enough; [exact Hold | lia | lia].
  - now destruct s.
Qed.

End StringFacts.

Lemma truthy_true (s : string) : PyStr.truthy s = true ↔ s ≠ "".
Proof.
  unfold PyStr.truthy. rewrite negb_true_iff. apply String.eqb_neq.
Qed.

Lemma truthy_opt_true (o : option string) :
  PyStr.truthy_opt o = true ↔ ∃ v, o = Some v ∧ v ≠ "".
Proof.
  destruct o as [v|]; simpl.
  - rewrite truthy_true. split; [eauto|]. now intros (? & [= <-] & ?).
  - split; [discriminate|]. now intros (? & ? & _).
Qed.

(** ** The monad: traces and return values *)

Section Traces.
Context (P : event → Prop).

Lemma emits_silent {A : Type} (m : M A) :
  (∀ st, log (snd (m st)) = log st) → emits P m.
Proof.
  intros H st. exists []. rewrite H, app_nil_r. split; [reflexivity | constructor].
Qed.

Lemma emits_ret {A : Type} (a : A) : emits P (ret a).
Proof. now apply emits_silent. Qed.

Lemma emits_mret {A : Type} (a : A) : emits P (mret a : M A).
Proof. now apply emits_silent. Qed.

Lemma emits_raise {A : Type} (e : exn) : emits P (raise e : M A).
Proof. now apply emits_silent. Qed.

Lemma emits_emit (ev : event) : P ev → emits P (emit ev).
Proof.
  intros H st. exists [ev]. split; [reflexivity | now repeat constructor].
Qed.

Lemma emits_bind {A B : Type} (m : M A) (k : A → M B) :
  emits P m → (∀ a, emits P (k a)) → emits P (m ≫= k).
Proof.
  intros Hm Hk st. unfold mbind, M_bind, bind.
  destruct (Hm st) as (e1 & E1 & F1).
  destruct (m st) as [[a|e] st1]; simpl in *; [|eauto].
  destruct (Hk a st1) as (e2 & E2 & F2).
  exists (e1 ++ e2). rewrite E2, E1, app_assoc.
  split; [reflexivity | now apply Forall_app].
Qed.

Lemma emits_try_except {A : Type} (body : M A) (handler : exn → M A) :
  emits P body → (∀ e, emits P (handler e)) → emits P (try_except body handler).
Proof.
  intros Hm Hk st. unfold try_except.
  destruct (Hm st) as (e1 & E1 & F1).
  destruct (body st) as [[a|e] st1]; simpl in *; [eauto|].
  destruct (Hk e st1) as (e2 & E2 & F2).
  exists (e1 ++ e2). rewrite E2, E1, app_assoc.
  split; [reflexivity | now apply Forall_app].
Qed.

Lemma emits_try_finally {A : Type} (body : M A) (final : M unit) :
  emits P body → emits P final → emits P (try_finally body final).
Proof.
  intros Hm Hk st. unfold try_finally.
  destruct (Hm st) as (e1 & E1 & F1).
  destruct (body st) as [r st1]; simpl in *.
  destruct (Hk st1) as (e2 & E2 & F2).
  exists (e1 ++ e2). rewrite app_assoc, <- E1, <- E2.
  split; [now destruct (final st1) as [[[]|e] st2] | now apply Forall_app].
Qed.

Lemma emits_os_path_exists (path : string) : emits P (os_path_exists path).
Proof. now apply emits_silent. Qed.

Lemma emits_yield_to_others (w : world) : emits P (yield_to_others w).
Proof. now apply emits_silent. Qed.

Lemma emits_os_makedirs (w : world) (path : string) :
  P (OsMakedirs path) → emits P (os_makedirs w path).
Proof.
  intros H st. exists [OsMakedirs path].
  split; [|now repeat constructor]. unfold os_makedirs.
  repeat case_match; reflexivity.
Qed.

Lemma emits_open_wb (w : world) (path : string) :
  P (OsOpenWb path) → emits P (open_wb w path).
Proof.
  intros H st. exists [OsOpenWb path].
  split; [|now repeat constructor]. unfold open_wb.
  repeat case_match; reflexivity.
Qed.

Lemma emits_f_write (w : world) (path : string) (content : list byte) :
  P (OsWrite path (length content)) → emits P (f_write w path content).
Proof.
  intros H st. exists [OsWrite path (length content)].
  split; [|now repeat constructor]. unfold f_write.
  repeat case_match; reflexivity.
Qed.

Lemma emits_os_remove (w : world) (path : string) :
  P (OsRemove path) → emits P (os_remove w path).
Proof.
  intros H st. exists [OsRemove path].
  split; [|now repeat constructor]. unfold os_remove.
  repeat case_match; reflexivity.
Qed.

Lemma emits_kickoff (w : world) (query file_path : string) :
  P (CrewKickoff query file_path) → emits P (kickoff w query file_path).
Proof.
  intros H st. exists [CrewKickoff query file_path].
  split; [|now repeat constructor]. unfold kickoff.
  simpl. now destruct (crew_kickoff w query file_path (files st)).
Qed.

End Traces.

Lemma returns_ret {A : Type} (Q : A → Prop) (a : A) : Q a → returns Q (ret a).
Proof. intros H st a' st' [= <- _]. exact H. Qed.

Lemma returns_raise {A : Type} (Q : A → Prop) (e : exn) :
  returns Q (raise e : M A).
Proof. intros st a st' [=]. Qed.

Lemma returns_any {A : Type} (m : M A) : returns (fun _ => True) m.
Proof. now intros st a st' _. Qed.

Lemma returns_bind {A B : Type} (R : A → Prop) (Q : B → Prop)
    (m : M A) (k : A → M B) :
  returns R m → (∀ a, R a → returns Q (k a)) → returns Q (m ≫= k).
Proof.
  intros Hm Hk st b st'. unfold mbind, M_bind, bind.
  destruct (m st) as [[a|e] st1] eqn:E; [|discriminate].
  intros H. exact (Hk a (Hm _ _ _ E) _ _ _ H).
Qed.

Lemma returns_try_except {A : Type} (Q : A → Prop)
    (body : M A) (handler : exn → M A) :
  returns Q body → (∀ e, returns Q (handler e)) →
  returns Q (try_except body handler).
Proof.
  intros Hm Hk st b st'. unfold try_except.
  destruct (body st) as [[a|e] st1] eqn:E.
  - intros [= <- _]. exact (Hm _ _ _ E).
  - apply Hk.
Qed.

Lemma returns_try_finally {A : Type} (Q : A → Prop)
    (body : M A) (final : M unit) :
  returns Q body → returns Q (try_finally body final).
Proof.
  intros Hm st b st'. unfold try_finally.
  destruct (body st) as [r st1] eqn:E.
  destruct (final st1) as [[[]|e] st2]; [|discriminate].
  intros [= -> _]. exact (Hm _ _ _ E).
Qed.

(** ** The template helpers of tools.py *)

(** C8.  Beyond the error check the two helpers are constant: on inputs
    that are not empty and do not contain ["Error"] each returns the same
    text whatever the input, and that text is not its error message; on
    the empty string and on any input that contains ["Error"] each returns
    its fixed error message. *)
Theorem template_helpers_constant (x y : string) :
  (x ≠ "" → PyStr.contains "Error" x = false →
   y ≠ "" → PyStr.contains "Error" y = false →
   analyze_investment_tool x = analyze_investment_tool y
   ∧ create_risk_assessment_tool x = create_risk_assessment_tool y
   ∧ analyze_investment_tool x ≠ investment_error
   ∧ create_risk_assessment_tool x ≠ risk_error)
  ∧ (x = "" ∨ PyStr.contains "Error" x = true →
     analyze_investment_tool x = investment_error
     ∧ create_risk_assessment_tool x = risk_error).
Proof.
  unfold analyze_investment_tool, create_risk_assessment_tool. split.
  - intros Hx Ex Hy Ey. apply truthy_true in Hx, Hy.
    rewrite Hx, Ex, Hy, Ey. simpl. repeat split; discriminate.
  - intros [->|E]; [split; reflexivity|].
    rewrite E, !orb_true_r. split; reflexivity.
Qed.

Lemma template_helpers_constant_witness :
  (analyze_investment_tool "Revenue grew 12%"
   = analyze_investment_tool "Net debt fell"
   ∧ create_risk_assessment_tool "Revenue grew 12%"
     = create_risk_assessment_tool "Net debt fell"
   ∧ analyze_investment_tool "Revenue grew 12%" ≠ investment_error
   ∧ create_risk_assessment_tool "Revenue grew 12%" ≠ risk_error)
  ∧ (analyze_investment_tool "Error: File not found at path: x.pdf"
     = investment_error
     ∧ create_risk_assessment_tool "Error: File not found at path: x.pdf"
       = risk_error).
Proof.
  split.
  - apply (template_helpers_constant "Revenue grew 12%" "Net debt fell");
      (discriminate || reflexivity).
  - apply (template_helpers_constant "Error: File not found at path: x.pdf" "").
    right. reflexivity.
Defined.

(** ** GET /health *)


(** ** POST /analyze: validation *)

(** C3.  An upload whose name, in lower case, does not end in [.pdf] is
    answered with the 400 error of the file type check, and the state is
    the one the request found: no file and no directory is created and no
    system call is made. *)
Theorem rejects_non_pdf (w : world) (file : UploadFile)
    (field : option string) (st : state) :
  PyStr.endswith (PyStr.lower (filename file)) ".pdf" = false →
  post_analyze w file field st
  = (Failure (mkError true 400
                "Only PDF files are supported for financial document analysis"
                "HTTP Exception"),
     st).
Proof.
  intros H. unfold post_analyze, analyze_document. now rewrite H.
Qed.

Lemma rejects_non_pdf_witness :
  post_analyze
    (mkWorld "0b5c" None None None None (fun f => f)
       (fun q p f => (Ok "report", f)) (fun _ => Ok [])
       (fun sc d => d))
    (mkUpload "report.txt" [x25; x50; x44; x46]) (Some "x")
    (mkState ∅ ∅ ∅ [])
  = (Failure (mkError true 400
                "Only PDF files are supported for financial document analysis"
                "HTTP Exception"),
     mkState ∅ ∅ ∅ []).
Proof. apply rejects_non_pdf. reflexivity. Defined.

(** ** POST /analyze: what the handler adds to the trace *)

Lemma run_crew_emits (P : event → Prop) (w : world) (query file_path : string) :
  (∀ m, P (LogInfo m)) → (∀ m, P (LogError m)) →
  P (CrewKickoff (crew_query query) file_path) →
  emits P (run_crew w query file_path).
Proof.
  intros Hi He Hk. unfold run_crew.
  apply emits_try_except.
  - apply emits_bind; [apply emits_os_path_exists|]. intros found.
    destruct (negb found); [apply emits_raise|].
    apply emits_bind; [apply emits_emit, Hi|]. intros _.
    apply emits_bind; [now apply emits_kickoff|]. intros result.
    apply emits_bind; [apply emits_emit, Hi|]. intros _.
    apply emits_ret.
  - intros e. apply emits_bind; [apply emits_emit, He|]. intros _.
    apply emits_raise.
Qed.

Lemma cleanup_emits (P : event → Prop) (w : world) (file_path : string) :
  (∀ m, P (LogInfo m)) → (∀ m, P (LogWarning m)) → P (OsRemove file_path) →
  emits P (cleanup w file_path).
Proof.
  intros Hi Hw Hr. unfold cleanup.
  apply emits_bind; [apply emits_os_path_exists|]. intros [|].
  - apply emits_try_except.
    + apply emits_bind; [now apply emits_os_remove|]. intros _.
      apply emits_emit, Hi.
    + intros e. apply emits_emit, Hw.
  - apply emits_ret.
Qed.

(** The events of one request: log records, [makedirs] on the data
    directory, the three system calls on the request's own path, and one
    run of the pipeline on that path. *)
Lemma analyze_document_emits (P : event → Prop) (w : world)
    (file : UploadFile) (query : option string) :
  (∀ m, P (LogInfo m)) → (∀ m, P (LogWarning m)) → (∀ m, P (LogError m)) →
  P (OsMakedirs "data") →
  P (OsOpenWb (storage_path (uuid4 w))) →
  (∀ n, P (OsWrite (storage_path (uuid4 w)) n)) →
  P (OsRemove (storage_path (uuid4 w))) →
  P (CrewKickoff (crew_query (clean_query query)) (storage_path (uuid4 w))) →
  emits P (analyze_document w file query).
Proof.
  intros Hi Hw He Hm Ho Hf Hr Hk. unfold analyze_document.
  destruct (negb _); [apply emits_raise|].
  apply emits_try_finally; [|now apply cleanup_emits].
  apply emits_try_except.
  - unfold analyze_try.
    apply emits_bind; [now apply emits_os_makedirs|]. intros _.
    apply emits_bind; [apply emits_emit, Hi|]. intros _.
    apply emits_bind.
    + unfold save_upload.
      apply emits_bind; [now apply emits_open_wb|]. intros _.
      destruct (Nat.eqb _ _); [apply emits_raise|].
      apply emits_bind; [apply emits_f_write, Hf|]. intros _.
      apply emits_ret.
    + intros content.
      apply emits_bind; [apply emits_emit, Hi|]. intros _.
      apply emits_bind; [apply emits_yield_to_others|]. intros _.
      apply emits_bind; [now apply run_crew_emits|]. intros result.
      apply emits_bind; [apply emits_emit, Hi|]. intros _.
      apply emits_ret.
  - intros e. unfold analyze_except.
    destruct e; (apply emits_bind; [apply emits_emit, He|]; intros _;
                 apply emits_raise).
Qed.

(** ** POST /analyze: the query, the size and the identifier *)

Lemma clean_query_not_blank (query : option string) :
  PyStr.strip (clean_query query) ≠ "" ∧ clean_query query ≠ "".
Proof.
  assert (∀ s, PyStr.strip s ≠ "" →
               PyStr.strip (PyStr.strip s) ≠ "" ∧ PyStr.strip s ≠ "") as H
      by (intros s Hs; split; [now intros E%strip_strip_empty | exact Hs]).
  unfold clean_query. destruct query as [q|]; [|apply H; discriminate].
  destruct (negb (PyStr.truthy q) || String.eqb (PyStr.strip q) "") eqn:E.
  - apply H. discriminate.
  - apply H. apply orb_false_iff in E as [_ E]. now apply String.eqb_neq.
Qed.

(** [run_crew] leaves the handler's query as it is: its own default never
    applies. *)
Lemma crew_query_clean_query (query : option string) :
  crew_query (clean_query query) = clean_query query.
Proof.
  destruct (clean_query_not_blank query) as [Hs Hq]. unfold crew_query.
  apply truthy_true in Hq. apply String.eqb_neq in Hs. now rewrite Hq, Hs.
Qed.

Lemma analyze_document_pipeline_query (w : world) (file : UploadFile)
    (query : option string) :
  emits (runs_pipeline_with (clean_query query)) (analyze_document w file query).
Proof.
  apply analyze_document_emits; simpl; auto. apply crew_query_clean_query.
Qed.

Lemma save_upload_returns (w : world) (file : UploadFile) (file_path : string) :
  returns (fun content => content = read file ∧ content ≠ [])
          (save_upload w file file_path).
Proof.
  unfold save_upload. apply returns_bind with (R := fun _ => True).
  - apply returns_any.
  - intros _ _. destruct (read file) as [|b content] eqn:E; simpl.
    + apply returns_raise.
    + apply returns_bind with (R := fun _ => True); [apply returns_any|].
      intros _ _. now apply returns_ret.
Qed.

Lemma analyze_except_raises (w : world) (e : exn) (st : state) :
  ∃ sc detail st',
    analyze_except w e st = (Raised (HTTPException sc detail), st')
    ∧ (sc = 404 ∨ sc = 500).
Proof. destruct e; simpl; eauto 10. Qed.

(** What a successful response holds. *)
Lemma analyze_document_returns (w : world) (file : UploadFile)
    (query : option string) :
  returns (fun r => r = mkResult "success" (clean_query query) (analysis r)
                      (filename file) (length (read file)) (uuid4 w)
                    ∧ read file ≠ []
                    ∧ PyStr.endswith (PyStr.lower (filename file)) ".pdf" = true)
          (analyze_document w file query).
Proof.
  unfold analyze_document.
  destruct (PyStr.endswith _ _) eqn:Hpdf; simpl; [|apply returns_raise].
  apply returns_try_finally, returns_try_except.
  - unfold analyze_try.
    apply returns_bind with (R := fun _ => True); [apply returns_any|].
    intros _ _.
    apply returns_bind with (R := fun _ => True); [apply returns_any|].
    intros _ _. eapply returns_bind; [apply save_upload_returns|].
    intros content [-> Hne].
    apply returns_bind with (R := fun _ => True); [apply returns_any|].
    intros _ _.
    apply returns_bind with (R := fun _ => True); [apply returns_any|].
    intros _ _.
    apply returns_bind with (R := fun _ => True); [apply returns_any|].
    intros result _.
    apply returns_bind with (R := fun _ => True); [apply returns_any|].
    intros _ _. now apply returns_ret.
  - intros e st a st' H.
    destruct (analyze_except_raises w e st) as (sc & d & st1 & E & _).
    congruence.
Qed.

Lemma post_analyze_success (w : world) (file : UploadFile)
    (field : option string) (st : state) (r : AnalysisResult) :
  fst (post_analyze w file field st) = Success r →
  ∃ st', analyze_document w file (form_query field) st = (Ok r, st').
Proof.
  unfold post_analyze.
  destruct (analyze_document w file (form_query field) st) as [[a|e] st'];
    simpl; [intros [= ->]; eauto|].
  destruct e; discriminate.
Qed.

Lemma clean_query_blank (field : option string) :
  blank field → clean_query (form_query field) = default_query.
Proof.
  destruct field as [q|]; simpl; [|reflexivity].
  intros H. unfold clean_query. apply String.eqb_eq in H.
  now rewrite H, orb_true_r.
Qed.

Lemma clean_query_text (q : string) :
  PyStr.strip q ≠ "" → clean_query (form_query (Some q)) = PyStr.strip q.
Proof.
  intros H. unfold clean_query. simpl.
  assert (q ≠ "") as Hq by (intros ->; now apply H).
  apply truthy_true in Hq. apply String.eqb_neq in H. now rewrite Hq, H.
Qed.

Example analyze_sample :
  post_analyze (calm_world "0b5c") sample_pdf (Some "  What is the margin? ")
    empty_disk
  = (Success (mkResult "success" "What is the margin?"
                "Report on: What is the margin?" "report.pdf" 4 "0b5c"),
     mkState ∅ {["data"]} ∅
       [ OsMakedirs "data";
         LogInfo "Processing uploaded file: report.pdf";
         OsOpenWb "data/financial_document_0b5c.pdf";
         OsWrite "data/financial_document_0b5c.pdf" 4;
         LogInfo "Starting financial analysis with query: What is the margin?";
         LogInfo "Starting analysis for query: What is the margin?";
         CrewKickoff "What is the margin?" "data/financial_document_0b5c.pdf";
         LogInfo "Analysis completed successfully";
         LogInfo "Analysis completed successfully";
         OsRemove "data/financial_document_0b5c.pdf";
         LogInfo "Cleaned up temporary file: data/financial_document_0b5c.pdf" ]).
Proof. vm_compute. reflexivity. Qed.

(** C5.  When the query field is missing, empty or blank, the query the
    handler works with is the fixed default: the pipeline is run on no
    other query, and a successful response carries it in [query]. *)
Theorem blank_query_is_default (w : world) (file : UploadFile)
    (field : option string) (st : state) :
  blank field →
  clean_query (form_query field) = default_query
  ∧ emits (runs_pipeline_with default_query)
          (analyze_document w file (form_query field))
  ∧ (∀ r, fst (post_analyze w file field st) = Success r →
          query r = default_query).
Proof.
  intros Hb. pose proof (clean_query_blank field Hb) as Hq.
  split; [exact Hq|]. split.
  - rewrite <- Hq. apply analyze_document_pipeline_query.
  - intros r (st' & H)%post_analyze_success.
    apply analyze_document_returns in H as [-> _]. exact Hq.
Qed.

Lemma blank_query_is_default_witness :
  blank (Some "   ")
  ∧ clean_query (form_query (Some "   ")) = default_query
  ∧ emits (runs_pipeline_with default_query)
          (analyze_document (calm_world "0b5c") sample_pdf
             (form_query (Some "   ")))
  ∧ (∀ r, fst (post_analyze (calm_world "0b5c") sample_pdf (Some "   ")
                 empty_disk) = Success r →
          query r = default_query).
Proof.
  split; [reflexivity|].
  apply (blank_query_is_default (calm_world "0b5c") sample_pdf (Some "   ")
           empty_disk).
  reflexivity.
Defined.

Example blank_query_run :
  fst (post_analyze (calm_world "0b5c") sample_pdf None empty_disk)
  = Success (mkResult "success" default_query
               ("Report on: " +:+ default_query) "report.pdf" 4 "0b5c").
Proof. vm_compute. reflexivity. Qed.

(** C10, as the code has it.  When the query has text left after
    stripping, the pipeline is run on the stripped query and on no other,
    and a successful response carries the stripped query in [query], the
    number of bytes read in [file_size] and the request's identifier in
    [processing_id]. *)
Theorem text_query_is_stripped (w : world) (file : UploadFile) (q : string)
    (st : state) :
  PyStr.strip q ≠ "" →
  emits (runs_pipeline_with (PyStr.strip q))
        (analyze_document w file (form_query (Some q)))
  ∧ (∀ r, fst (post_analyze w file (Some q) st) = Success r →
          query r = PyStr.strip q
          ∧ file_size r = length (read file)
          ∧ processing_id r = uuid4 w).
Proof.
  intros Hq. pose proof (clean_query_text q Hq) as E.
  change (form_query (Some q)) with (Some q) in *. split.
  - rewrite <- E. apply analyze_document_pipeline_query.
  - intros r (st' & H)%post_analyze_success.
    apply analyze_document_returns in H as [-> _]. simpl.
    now rewrite E.
Qed.

Lemma text_query_is_stripped_witness :
  PyStr.strip "  What is the margin? " ≠ ""
  ∧ emits (runs_pipeline_with (PyStr.strip "  What is the margin? "))
          (analyze_document (calm_world "0b5c") sample_pdf
             (form_query (Some "  What is the margin? ")))
  ∧ (∀ r, fst (post_analyze (calm_world "0b5c") sample_pdf
                 (Some "  What is the margin? ") empty_disk) = Success r →
          query r = PyStr.strip "  What is the margin? "
          ∧ file_size r = length (read sample_pdf)
          ∧ processing_id r = uuid4 (calm_world "0b5c")).
Proof.
  split; [discriminate|].
  apply (text_query_is_stripped (calm_world "0b5c") sample_pdf
           "  What is the margin? " empty_disk).
  discriminate.
Defined.

(** C10 as stated fails: a query of one space is not empty, yet the
    successful response carries the default query, not the empty string
    that stripping the submitted query gives. *)
Lemma nonempty_query_not_stripped :
  ¬ (∀ (w : world) (file : UploadFile) (q : string) (st : state)
       (r : AnalysisResult),
        PyStr.endswith (PyStr.lower (filename file)) ".pdf" = true →
        read file ≠ [] →
        q ≠ "" →
        fst (post_analyze w file (Some q) st) = Success r →
        query r = PyStr.strip q).
Proof.
  intros H.
  specialize (H (calm_world "0b5c") sample_pdf " " empty_disk
                (mkResult "success" default_query
                   ("Report on: " +:+ default_query) "report.pdf" 4 "0b5c")).
  discriminate H; [reflexivity | discriminate | discriminate |].
  vm_compute. reflexivity.
Qed.

(** ** POST /analyze: the storage path *)

Lemma storage_path_inj (id1 id2 : string) :
  storage_path id1 = storage_path id2 → id1 = id2.
Proof.
  unfold storage_path. intros H.
  apply String.app_inj in H. now apply app_inj_r in H.
Qed.

(** C6.  The storage path is an injective function of the identifier
    drawn for the request: requests with distinct identifiers have
    distinct paths, and no system call one of them makes on a file names
    the path of the other. *)
Theorem distinct_ids_distinct_paths (w1 w2 : world) (file : UploadFile)
    (query : option string) :
  uuid4 w1 ≠ uuid4 w2 →
  storage_path (uuid4 w1) ≠ storage_path (uuid4 w2)
  ∧ emits (leaves_alone (storage_path (uuid4 w2)))
          (analyze_document w1 file query).
Proof.
  intros Hid.
  assert (storage_path (uuid4 w1) ≠ storage_path (uuid4 w2)) as Hp
      by (intros E; now apply Hid, storage_path_inj).
  split; [exact Hp|]. now apply analyze_document_emits.
Qed.

Lemma distinct_ids_distinct_paths_witness :
  storage_path "0b5c" ≠ storage_path "7e21"
  ∧ emits (leaves_alone (storage_path "7e21"))
          (analyze_document (calm_world "0b5c") sample_pdf None).
Proof.
  apply (distinct_ids_distinct_paths (calm_world "0b5c") (calm_world "7e21")
           sample_pdf None).
  discriminate.
Defined.

(** ** POST /analyze: clean-up *)

Lemma path_exists_false (st : state) (path : string) :
  path_exists st path = false → files st !! path = None.
Proof.
  unfold path_exists. intros [H _]%orb_false_iff.
  apply bool_decide_eq_false in H.
  destruct (files st !! path); [exfalso; apply H; eauto | reflexivity].
Qed.

(** The [finally] block never raises. *)
Lemma cleanup_ok (w : world) (file_path : string) (st : state) :
  ∃ st', cleanup w file_path st = (Ok tt, st').
Proof.
  unfold cleanup, mbind, M_bind, bind, os_path_exists, try_except, os_remove.
  destruct (path_exists st file_path); simpl; [|eauto].
  destruct (remove_error w); simpl; eauto.
Qed.

Lemma analyze_document_pdf (w : world) (file : UploadFile)
    (query : option string) (st : state) :
  PyStr.endswith (PyStr.lower (filename file)) ".pdf" = true →
  analyze_document w file query st
  = try_finally
      (try_except
         (analyze_try w file query (uuid4 w) (storage_path (uuid4 w)))
         (analyze_except w))
      (cleanup w (storage_path (uuid4 w))) st.
Proof. intros H. unfold analyze_document. now rewrite H. Qed.

(** C1.  For a request that passes the file type check, the response is
    the one the [try] block and its [except] clauses determined, whatever
    the clean-up does.  If the file is there at that point, the handler
    calls [os.remove] on it; when the call does not fail the file is gone
    afterwards, and when it fails a warning is logged and nothing else
    changes.  If the file is not there, the clean-up does nothing. *)
Theorem cleanup_invariant (w : world) (file : UploadFile)
    (query : option string) (st : state) :
  PyStr.endswith (PyStr.lower (filename file)) ".pdf" = true →
  let path := storage_path (uuid4 w) in
  let determined :=
    try_except (analyze_try w file query (uuid4 w) path) (analyze_except w) st in
  let final := analyze_document w file query st in
  fst final = fst determined
  ∧ (remove_error w = None → files (snd final) !! path = None)
  ∧ (path_exists (snd determined) path = true →
     ∃ last,
       log (snd final) = log (snd determined) ++ [OsRemove path; last]
       ∧ match remove_error w with
         | None => last = LogInfo ("Cleaned up temporary file: " +:+ path)
         | Some e =>
             last = LogWarning ("Failed to cleanup file " +:+ path +:+ ": "
                                  +:+ str_exn w e)
             ∧ files (snd final) = files (snd determined)
             ∧ dirs (snd final) = dirs (snd determined)
         end)
  ∧ (path_exists (snd determined) path = false → snd final = snd determined).
Proof.
  intros Hpdf path determined final. subst final determined.
  rewrite (analyze_document_pdf _ _ _ _ Hpdf). fold path. unfold try_finally.
  destruct (try_except _ _ st) as [r st1]. simpl fst. simpl snd.
  unfold cleanup, mbind, M_bind, bind, os_path_exists, try_except, os_remove.
  destruct (path_exists st1 path) eqn:Hex.
  - destruct (remove_error w) as [e|]; simpl.
    + split; [reflexivity|]. split; [discriminate|].
      split; [|discriminate]. intros _. eexists. split.
      * now rewrite <- app_assoc.
      * auto.
    + split; [reflexivity|]. split; [intros _; apply lookup_delete_eq|].
      split; [|discriminate]. intros _. eexists. split.
      * now rewrite <- app_assoc.
      * reflexivity.
  - simpl. split; [reflexivity|].
    split; [intros _; now apply path_exists_false|].
    split; [discriminate | reflexivity].
Qed.

Lemma cleanup_invariant_witness :
  let w := mkWorld "0b5c" None None None (Some (Exception "busy"))
             (fun f => f) (fun q p f => (Ok "report", f)) (fun _ => Ok [])
             (fun sc d => d) in
  let path := storage_path (uuid4 w) in
  let determined :=
    try_except (analyze_try w sample_pdf None (uuid4 w) path)
      (analyze_except w) empty_disk in
  let final := analyze_document w sample_pdf None empty_disk in
  fst final = fst determined
  ∧ (remove_error w = None → files (snd final) !! path = None)
  ∧ (path_exists (snd determined) path = true →
     ∃ last,
       log (snd final) = log (snd determined) ++ [OsRemove path; last]
       ∧ match remove_error w with
         | None => last = LogInfo ("Cleaned up temporary file: " +:+ path)
         | Some e =>
             last = LogWarning ("Failed to cleanup file " +:+ path +:+ ": "
                                  +:+ str_exn w e)
             ∧ files (snd final) = files (snd determined)
             ∧ dirs (snd final) = dirs (snd determined)
         end)
  ∧ (path_exists (snd determined) path = false → snd final = snd determined).
Proof.
  apply (cleanup_invariant
           (mkWorld "0b5c" None None None (Some (Exception "busy"))
              (fun f => f) (fun q p f => (Ok "report", f)) (fun _ => Ok [])
              (fun sc d => d))
           sample_pdf None empty_disk).
  reflexivity.
Defined.

Example cleanup_failure_run :
  post_analyze
    (mkWorld "0b5c" None None None (Some (Exception "busy"))
       (fun f => f) (fun q p f => (Ok "report", f)) (fun _ => Ok [])
       (fun sc d => d))
    sample_pdf None empty_disk
  = (Success (mkResult "success" default_query "report" "report.pdf" 4 "0b5c"),
     mkState {["data/financial_document_0b5c.pdf" := [x25; x50; x44; x46]]}
       {["data"]} ∅
       [ OsMakedirs "data";
         LogInfo "Processing uploaded file: report.pdf";
         OsOpenWb "data/financial_document_0b5c.pdf";
         OsWrite "data/financial_document_0b5c.pdf" 4;
         LogInfo ("Starting financial analysis with query: " +:+ default_query);
         LogInfo ("Starting analysis for query: " +:+ default_query);
         CrewKickoff default_query "data/financial_document_0b5c.pdf";
         LogInfo "Analysis completed successfully";
         LogInfo "Analysis completed successfully";
         OsRemove "data/financial_document_0b5c.pdf";
         LogWarning
           "Failed to cleanup file data/financial_document_0b5c.pdf: busy" ]).
Proof. vm_compute. reflexivity. Qed.

(** ** The text extractor *)

(** The loop over the pages leaves the state alone. *)
Lemma read_pages_state (w : world) (pages : list (result (result string))) :
  ∀ (page_num : nat) (full_text : string) (st : state),
    ∃ r, read_pages w page_num pages full_text st = (r, st).
Proof.
  induction pages as [|next rest IH]; intros page_num full_text st.
  - exists (Ok full_text). reflexivity.
  - simpl. unfold mbind, M_bind, bind, try_except, next_page, extract_text.
    destruct next as [[text|e]|e].
    + destruct (PyStr.truthy (PyStr.strip text)); apply IH.
    + apply IH.
    + eauto.
Qed.

(** C7.  The text extractor returns a string on every path, in every
    world and state: it never raises, and it leaves the state as it was.
    The string is not empty.  It is a marker that begins with ["Error"]
    when the file is missing, when opening, parsing or iterating it
    raises, and when the pages hold no text; otherwise it is the text of
    the pages, with runs of line feeds shortened and the ends stripped. *)
Theorem read_data_tool_total (w : world) (path : string) (st : state) :
  ∃ s, read_data_tool w path st = (Ok s, st)
       ∧ s ≠ ""
       ∧ (path_exists st path = false →
          s = "Error: File not found at path: " +:+ path
          ∧ starts_with_Error s)
       ∧ (∀ e, path_exists st path = true → pdf_reader w path = Raised e →
               s = "Error reading PDF file: " +:+ str_exn w e
               ∧ starts_with_Error s)
       ∧ (∀ pages e,
            path_exists st path = true → pdf_reader w path = Ok pages →
            read_pages w 0 pages "" st = (Raised e, st) →
            s = "Error reading PDF file: " +:+ str_exn w e
            ∧ starts_with_Error s)
       ∧ (∀ pages full_text,
            path_exists st path = true → pdf_reader w path = Ok pages →
            read_pages w 0 pages "" st = (Ok full_text, st) →
            if String.eqb (PyStr.strip full_text) ""
            then s = "Error: No readable text found in the PDF document"
                 ∧ starts_with_Error s
            else s = PyStr.strip
                       (PyStr.replace (nl +:+ nl +:+ nl) (nl +:+ nl) full_text)).
Proof.
  unfold read_data_tool, try_except, mbind, M_bind, bind, os_path_exists,
    PdfReader, starts_with_Error.
  destruct (path_exists st path) eqn:Hex; simpl.
  - destruct (pdf_reader w path) as [pages|e] eqn:Hpdf.
    + destruct (read_pages_state w pages 0 "" st) as ([t|e] & Ht); rewrite Ht.
      * unfold PyStr.truthy. rewrite negb_involutive.
        destruct (String.eqb (PyStr.strip t) "") eqn:Hblank; simpl.
        -- eexists. split; [reflexivity|]. split; [discriminate|].
           split; [discriminate|]. split; [discriminate|].
           split; [intros pages' e' _ [= <-]; rewrite Ht; discriminate|].
           intros pages' t' _ [= <-]. rewrite Ht. intros [= <-].
           now rewrite Hblank.
        -- eexists. split; [reflexivity|]. split.
           ++ rewrite strip_empty. apply not_true_iff_false.
              apply replace_text; [reflexivity|].
              apply not_true_iff_false. rewrite <- strip_empty.
              now apply String.eqb_neq.
           ++ split; [discriminate|]. split; [discriminate|].
              split; [intros pages' e' _ [= <-]; rewrite Ht; discriminate|].
              intros pages' t' _ [= <-]. rewrite Ht. intros [= <-].
              now rewrite Hblank.
      * eexists. split; [reflexivity|]. split; [discriminate|].
        split; [discriminate|]. split; [discriminate|]. split.
        -- intros pages' e' _ [= <-]. rewrite Ht. intros [= <-].
           split; reflexivity.
        -- intros pages' t' _ [= <-]. rewrite Ht. discriminate.
    + eexists. split; [reflexivity|]. split; [discriminate|].
      split; [discriminate|]. split.
      * intros e' _ [= <-]. split; reflexivity.
      * split; discriminate.
  - eexists. split; [reflexivity|]. split; [discriminate|].
    split; [intros _; split; reflexivity|].
    split; [discriminate|]. split; discriminate.
Qed.

Example read_broken_iteration :
  fst (read_data_tool
         (mkWorld "0b5c" None None None None (fun f => f)
            (fun q p f => (Ok "report", f))
            (fun _ => Ok [Ok (Ok "Revenue 10");
                          Raised (Exception "EOF marker not found")])
            (fun sc d => d))
         "data/sample.pdf"
         (mkState {["data/sample.pdf" := [x25]]} {["data"]} ∅ []))
  = Ok "Error reading PDF file: EOF marker not found".
Proof. vm_compute. reflexivity. Qed.

Example read_two_pages :
  fst (read_data_tool
         (mkWorld "0b5c" None None None None (fun f => f)
            (fun q p f => (Ok "report", f))
            (fun _ => Ok [Ok (Ok "Revenue 10");
                          Ok (Raised (Exception "bad page")); Ok (Ok "  ")])
            (fun sc d => d))
         "data/sample.pdf"
         (mkState {["data/sample.pdf" := [x25]]} {["data"]} ∅ []))
  = Ok ("--- Page 1 ---" +:+ nl +:+ "Revenue 10" +:+ nl +:+ nl
        +:+ "--- Page 2 (Error reading) ---").
Proof. vm_compute. reflexivity. Qed.

(** ** POST /analyze: the status of the errors *)

(** Past the file type check the handler raises nothing but an
    [HTTPException] built by one of its two [except] clauses: status 404
    or 500. *)
Lemma analyze_document_raises (w : world) (file : UploadFile)
    (query : option string) (st st' : state) (e : exn) :
  PyStr.endswith (PyStr.lower (filename file)) ".pdf" = true →
  analyze_document w file query st = (Raised e, st') →
  ∃ sc detail, e = HTTPException sc detail ∧ (sc = 404 ∨ sc = 500).
Proof.
  intros Hpdf. rewrite (analyze_document_pdf _ _ _ _ Hpdf).
  unfold try_finally, try_except.
  destruct (analyze_try _ _ _ _ _ st) as [[a|e0] st1].
  - destruct (cleanup_ok w (storage_path (uuid4 w)) st1) as (st2 & ->).
    discriminate.
  - destruct (analyze_except_raises w e0 st1) as (sc & d & st2 & -> & Hsc).
    destruct (cleanup_ok w (storage_path (uuid4 w)) st2) as (st3 & ->).
    intros [= <- _]. eauto.
Qed.

Lemma run_crew_missing (w : world) (query file_path : string) (st : state) :
  path_exists st file_path = false →
  run_crew w query file_path st
  = (Raised (Exception ("Analysis failed: Financial document not found at: "
                          +:+ file_path)),
     record (LogError ("Error in crew execution: "
                         +:+ "Financial document not found at: " +:+ file_path))
       st).
Proof.
  intros H. unfold run_crew, try_except, mbind, M_bind, bind, os_path_exists.
  rewrite H. reflexivity.
Qed.

Lemma storage_path_not_data (file_id : string) : storage_path file_id ≠ "data".
Proof. discriminate. Qed.

(** The state in which [analyze_try] calls [run_crew], when the save
    succeeds: the directory is there, the upload is on disk, and other
    processes have had their turn. *)
Lemma analyze_try_saved (w : world) (file : UploadFile) (query : option string)
    (st : state) :
  read file ≠ [] →
  files st !! "data" = None → makedirs_error w = None →
  open_error w = None → write_error w = None →
  ∃ st1,
    analyze_try w file query (uuid4 w) (storage_path (uuid4 w)) st
    = (run_crew w (clean_query query) (storage_path (uuid4 w)) ≫= fun analysis_result =>
       logger_info "Analysis completed successfully";;
       ret (mkResult "success" (clean_query query) analysis_result
              (filename file) (length (read file)) (uuid4 w))) st1
    ∧ files st1
      = other_processes w
          (<[storage_path (uuid4 w) := read file]>
             (<[storage_path (uuid4 w) := []]> (files st)))
    ∧ dirs st1 = {["data"]} ∪ dirs st.
Proof.
  intros Hne Hdata Hmk Hop Hwr.
  unfold analyze_try, save_upload, mbind, M_bind, bind, os_makedirs, open_wb,
    f_write, yield_to_others, logger_info, emit.
  simpl. rewrite Hdata, Hmk, Hop, Hwr.
  destruct (read file) as [|b content] eqn:Hread; [congruence|].
  destruct (bool_decide ("data" ∈ dirs st)) eqn:Hd; simpl.
  - eexists. split; [reflexivity|]. simpl. split; [reflexivity|].
    apply bool_decide_eq_true in Hd. symmetry.
    apply subseteq_union_1_L. now apply singleton_subseteq_l.
  - eexists. split; [reflexivity|]. split; reflexivity.
Qed.

(** C2, as the code has it.  The upload is saved, and then the file is
    gone when [run_crew] looks for it.  [run_crew] raises
    [FileNotFoundError] inside its own [try], whose [except Exception]
    clause wraps it in a plain [Exception]; the handler's
    [except FileNotFoundError] clause therefore never sees it, and the
    response has status 500, not 404. *)
Theorem vanished_document_is_500 (w : world) (file : UploadFile)
    (field : option string) (st : state) :
  PyStr.endswith (PyStr.lower (filename file)) ".pdf" = true →
  read file ≠ [] →
  files st !! "data" = None → makedirs_error w = None →
  open_error w = None → write_error w = None →
  storage_path (uuid4 w) ∉ dirs st →
  other_processes w
    (<[storage_path (uuid4 w) := read file]>
       (<[storage_path (uuid4 w) := []]> (files st)))
    !! storage_path (uuid4 w) = None →
  fst (post_analyze w file field st)
  = Failure (mkError true 500
               ("Error processing financial document: Analysis failed: "
                  +:+ "Financial document not found at: "
                  +:+ storage_path (uuid4 w))
               "HTTP Exception").
Proof.
  intros Hpdf Hne Hdata Hmk Hop Hwr Hdir Hgone.
  unfold post_analyze. rewrite (analyze_document_pdf _ _ _ _ Hpdf).
  unfold try_finally, try_except.
  destruct (analyze_try_saved w file (form_query field) st Hne Hdata Hmk Hop Hwr)
    as (st1 & -> & Hf & Hd).
  unfold mbind, M_bind, bind. rewrite run_crew_missing.
  - simpl.
    match goal with
    | |- context [cleanup w ?p ?s] =>
        destruct (cleanup_ok w p s) as (st2 & ->)
    end.
    reflexivity.
  - unfold path_exists. rewrite Hf, Hgone, Hd.
    apply orb_false_iff. split; apply bool_decide_eq_false_2.
    + intros [? [=]].
    + rewrite elem_of_union, elem_of_singleton.
      intros [E|E]; [now apply storage_path_not_data in E | contradiction].
Qed.

Lemma vanished_document_is_500_witness :
  fst (post_analyze (sweeping_world "0b5c") sample_pdf (Some "margin?")
         empty_disk)
  = Failure (mkError true 500
               ("Error processing financial document: Analysis failed: "
                  +:+ "Financial document not found at: "
                  +:+ storage_path (uuid4 (sweeping_world "0b5c")))
               "HTTP Exception").
Proof.
  apply (vanished_document_is_500 (sweeping_world "0b5c") sample_pdf
           (Some "margin?") empty_disk);
    [ reflexivity | discriminate | reflexivity | reflexivity | reflexivity
    | reflexivity | apply not_elem_of_empty | reflexivity ].
Defined.

(** C4, as the code has it.  The 400 error for an empty upload is raised
    inside the [try] block, where the [except Exception] clause catches it
    and raises a 500 error in its place: no upload of zero bytes with a
    [.pdf] name is answered with status 400. *)
Theorem empty_upload_not_400 (w : world) (file : UploadFile)
    (field : option string) (st : state) :
  PyStr.endswith (PyStr.lower (filename file)) ".pdf" = true →
  read file = [] →
  ∃ e, fst (post_analyze w file field st) = Failure e
       ∧ (status_code e = 404 ∨ status_code e = 500).
Proof.
  intros Hpdf Hempty. unfold post_analyze.
  destruct (analyze_document w file (form_query field) st) as [[r|e] st'] eqn:E.
  - apply analyze_document_returns in E as (_ & Hne & _). contradiction.
  - destruct (analyze_document_raises _ _ _ _ _ _ Hpdf E) as (sc & d & -> & Hsc).
    simpl. eauto.
Qed.

Lemma empty_upload_not_400_witness :
  ∃ e, fst (post_analyze (calm_world "0b5c") (mkUpload "empty.pdf" []) None
              empty_disk) = Failure e
       ∧ (status_code e = 404 ∨ status_code e = 500).
Proof.
  apply (empty_upload_not_400 (calm_world "0b5c") (mkUpload "empty.pdf" [])
           None empty_disk);
    reflexivity.
Defined.

Example empty_upload_run :
  post_analyze (calm_world "0b5c") (mkUpload "empty.pdf" []) None empty_disk
  = (Failure (mkError true 500
                "Error processing financial document: 400: Uploaded file is empty"
                "HTTP Exception"),
     mkState ∅ {["data"]} ∅
       [ OsMakedirs "data";
         LogInfo "Processing uploaded file: empty.pdf";
         OsOpenWb "data/financial_document_0b5c.pdf";
         LogError
           "Error processing financial document: 400: Uploaded file is empty";
         OsRemove "data/financial_document_0b5c.pdf";
         LogInfo "Cleaned up temporary file: data/financial_document_0b5c.pdf" ]).
Proof. vm_compute. reflexivity. Qed.

(** ** POST /analyze: the successful run *)

Lemma run_crew_found (w : world) (query file_path report : string)
    (st : state) (f' : gmap string (list byte)) :
  path_exists st file_path = true →
  crew_kickoff w (crew_query query) file_path (files st) = (Ok report, f') →
  ∃ st', run_crew w query file_path st = (Ok report, st').
Proof.
  intros Hex Hk.
  unfold run_crew, try_except, mbind, M_bind, bind, os_path_exists, kickoff,
    logger_info, emit.
  rewrite Hex. simpl. rewrite Hk. simpl. eauto.
Qed.

(** X4.  When the save succeeds, the file is still there when the pipeline
    looks for it and the pipeline answers, the response is the success
    body with the cleaned query, the pipeline's report, the name and size
    of the upload and the request's identifier. *)
Lemma analyze_success (w : world) (file : UploadFile) (field : option string)
    (st : state) (report : string) (f' : gmap string (list byte)) :
  PyStr.endswith (PyStr.lower (filename file)) ".pdf" = true →
  read file ≠ [] →
  files st !! "data" = None → makedirs_error w = None →
  open_error w = None → write_error w = None →
  let path := storage_path (uuid4 w) in
  let saved :=
    other_processes w (<[path := read file]> (<[path := []]> (files st))) in
  is_Some (saved !! path) →
  crew_kickoff w (clean_query (form_query field)) path saved = (Ok report, f') →
  fst (post_analyze w file field st)
  = Success (mkResult "success" (clean_query (form_query field)) report
               (filename file) (length (read file)) (uuid4 w)).
Proof.
  intros Hpdf Hne Hdata Hmk Hop Hwr path saved Hthere Hk.
  unfold post_analyze. rewrite (analyze_document_pdf _ _ _ _ Hpdf).
  unfold try_finally, try_except.
  destruct (analyze_try_saved w file (form_query field) st Hne Hdata Hmk Hop Hwr)
    as (st1 & -> & Hf & Hd).
  fold path in Hf |- *. fold saved in Hf.
  destruct (run_crew_found w (clean_query (form_query field)) path report st1 f')
    as (st2 & Hrun).
  - unfold path_exists. rewrite Hf. now rewrite bool_decide_eq_true_2.
  - now rewrite crew_query_clean_query, Hf.
  - unfold mbind, M_bind, bind. rewrite Hrun. simpl.
    match goal with
    | |- context [cleanup w ?p ?s] =>
        destruct (cleanup_ok w p s) as (st3 & ->)
    end.
    reflexivity.
Qed.

(** An empty upload leaves a file of zero bytes on disk at the moment the
    response is determined; the clean-up then removes it. *)
Lemma empty_upload_transient_file (w : world) (file : UploadFile)
    (query : option string) (st : state) :
  read file = [] →
  files st !! "data" = None → makedirs_error w = None → open_error w = None →
  let path := storage_path (uuid4 w) in
  let determined :=
    try_except (analyze_try w file query (uuid4 w) path) (analyze_except w) st in
  fst determined
  = Raised (HTTPException 500
              ("Error processing financial document: "
                 +:+ http_exception_str w 400 "Uploaded file is empty"))
  ∧ files (snd determined) !! path = Some [].
Proof.
  intros Hempty Hdata Hmk Hop path determined. subst determined.
  unfold try_except, analyze_try, save_upload, mbind, M_bind, bind,
    os_makedirs, open_wb, logger_info, emit.
  simpl. rewrite Hdata, Hmk, Hop, Hempty.
  destruct (bool_decide ("data" ∈ dirs st)); simpl;
    (split; [reflexivity | apply lookup_insert_eq]).
Qed.

(** * Further properties of the code *)

(** ** The monad: exceptions and state relations *)

Section Raises.
Context (Q : exn → Prop).

Lemma raises_never {A : Type} (m : M A) :
  (∀ st, ∃ a st', m st = (Ok a, st')) → raises Q m.
Proof. intros H st e st' E. destruct (H st) as (a & st1 & E'). congruence. Qed.

Lemma raises_ret {A : Type} (a : A) : raises Q (ret a).
Proof. apply raises_never. intros st. now exists a, st. Qed.

Lemma raises_raise {A : Type} (e : exn) : Q e → raises Q (raise e : M A).
Proof. intros H st e' st' [= <- _]. exact H. Qed.

Lemma raises_emit (ev : event) : raises Q (emit ev).
Proof. apply raises_never. intros st. now exists tt, (record ev st). Qed.

Lemma raises_bind {A B : Type} (m : M A) (k : A → M B) :
  raises Q m → (∀ a, raises Q (k a)) → raises Q (m ≫= k).
Proof.
  intros Hm Hk st e st'. unfold mbind, M_bind, bind.
  destruct (m st) as [[a|e0] st1] eqn:E.
  - apply Hk.
  - intros [= <- _]. exact (Hm _ _ _ E).
Qed.

Lemma raises_try_except {A : Type} (body : M A) (handler : exn → M A) :
  (∀ e, raises Q (handler e)) → raises Q (try_except body handler).
Proof.
  intros Hk st e st'. unfold try_except.
  destruct (body st) as [[a|e0] st1]; [discriminate | apply Hk].
Qed.

Lemma raises_os_path_exists (path : string) : raises Q (os_path_exists path).
Proof. apply raises_never. intros st. now exists (path_exists st path), st. Qed.

Lemma raises_yield_to_others (w : world) : raises Q (yield_to_others w).
Proof. apply raises_never. intros st. eexists _, _. reflexivity. Qed.

Lemma raises_os_makedirs (w : world) (path : string) :
  (∀ m, Q (Exception m)) → (∀ e, makedirs_error w = Some e → Q e) →
  raises Q (os_makedirs w path).
Proof.
  intros HE Hw st e st'. unfold os_makedirs.
  repeat case_match; intros [= <- _]; auto.
Qed.

Lemma raises_open_wb (w : world) (path : string) :
  (∀ e, open_error w = Some e → Q e) → raises Q (open_wb w path).
Proof.
  intros Hw st e st'. unfold open_wb.
  repeat case_match; intros [= <- _]; auto.
Qed.

Lemma raises_f_write (w : world) (path : string) (content : list byte) :
  (∀ e, write_error w = Some e → Q e) → raises Q (f_write w path content).
Proof.
  intros Hw st e st'. unfold f_write.
  repeat case_match; intros [= <- _]; auto.
Qed.

End Raises.

Section Preserves.
Context (R : state → state → Prop) `{!Reflexive R} `{!Transitive R}.

Lemma preserves_same {A : Type} (m : M A) :
  (∀ st, snd (m st) = st) → preserves R m.
Proof. intros H st. rewrite H. reflexivity. Qed.

Lemma preserves_ret {A : Type} (a : A) : preserves R (ret a).
Proof. now apply preserves_same. Qed.

Lemma preserves_raise {A : Type} (e : exn) : preserves R (raise e : M A).
Proof. now apply preserves_same. Qed.

Lemma preserves_bind {A B : Type} (m : M A) (k : A → M B) :
  preserves R m → (∀ a, preserves R (k a)) → preserves R (m ≫= k).
Proof.
  intros Hm Hk st. unfold mbind, M_bind, bind.
  pose proof (Hm st) as H1.
  destruct (m st) as [[a|e] st1]; simpl in *; [|exact H1].
  etransitivity; [exact H1 | apply Hk].
Qed.

Lemma preserves_try_except {A : Type} (body : M A) (handler : exn → M A) :
  preserves R body → (∀ e, preserves R (handler e)) →
  preserves R (try_except body handler).
Proof.
  intros Hm Hk st. unfold try_except.
  pose proof (Hm st) as H1.
  destruct (body st) as [[a|e] st1]; simpl in *; [exact H1|].
  etransitivity; [exact H1 | apply Hk].
Qed.

Lemma preserves_try_finally {A : Type} (body : M A) (final : M unit) :
  preserves R body → preserves R final → preserves R (try_finally body final).
Proof.
  intros Hm Hk st. unfold try_finally.
  pose proof (Hm st) as H1.
  destruct (body st) as [r st1]; simpl in *.
  pose proof (Hk st1) as H2.
  destruct (final st1) as [[[]|e] st2]; simpl in *;
    (etransitivity; [exact H1 | exact H2]).
Qed.

End Preserves.

(** ** run_crew *)

(** X1.  What [run_crew] gives its caller.  It returns the pipeline's
    report only if the file is there and the pipeline returned it.  In
    every other case it raises a plain [Exception] whose message is
    ["Analysis failed: "] followed by the text of the cause, which is
    either its own [FileNotFoundError] for a missing file or whatever the
    pipeline raised: no other exception class leaves [run_crew]. *)
Theorem run_crew_outcome (w : world) (query file_path : string) (st : state) :
  match fst (run_crew w query file_path st) with
  | Ok report =>
      path_exists st file_path = true
      ∧ fst (crew_kickoff w (crew_query query) file_path (files st)) = Ok report
  | Raised e =>
      ∃ cause,
        e = Exception ("Analysis failed: " +:+ str_exn w cause)
        ∧ (path_exists st file_path = false
           ∧ cause = FileNotFoundError
                       ("Financial document not found at: " +:+ file_path)
           ∨ path_exists st file_path = true
             ∧ fst (crew_kickoff w (crew_query query) file_path (files st))
               = Raised cause)
  end.
Proof.
  unfold run_crew, try_except, mbind, M_bind, bind, os_path_exists, kickoff,
    logger_info, logger_error, emit.
  destruct (path_exists st file_path) eqn:Hex; simpl.
  - destruct (crew_kickoff w (crew_query query) file_path (files st))
      as [[report|cause] f'] eqn:Hk; simpl.
    + split; reflexivity.
    + exists cause. split; [reflexivity|]. right. split; reflexivity.
  - exists (FileNotFoundError
              ("Financial document not found at: " +:+ file_path)).
    split; [reflexivity|]. left. split; reflexivity.
Qed.

Lemma run_crew_raises_exception (w : world) (query file_path : string) :
  raises not_file_not_found (run_crew w query file_path).
Proof.
  unfold run_crew. apply raises_try_except. intros e.
  apply raises_bind; [apply raises_emit|]. intros _.
  now apply raises_raise.
Qed.

Lemma run_crew_kickoff_raises (w : world) (query file_path : string)
    (cause : exn) (st : state) (f' : gmap string (list byte)) :
  path_exists st file_path = true →
  crew_kickoff w (crew_query query) file_path (files st) = (Raised cause, f') →
  ∃ st', run_crew w query file_path st
         = (Raised (Exception ("Analysis failed: " +:+ str_exn w cause)), st').
Proof.
  intros Hex Hk.
  unfold run_crew, try_except, mbind, M_bind, bind, os_path_exists, kickoff,
    logger_info, logger_error, emit.
  rewrite Hex. simpl. rewrite Hk. simpl. eauto.
Qed.

(** ** POST /analyze: which error for which failure *)

Lemma analyze_except_handled (w : world) (e : exn) (st : state) :
  ∃ st', analyze_except w e st = (Raised (handled w e), st').
Proof. destruct e; simpl; eauto. Qed.

(** The outcome of the handler, past the file type check, is the outcome
    of the [try] block with its exception handled. *)
Lemma analyze_document_fst (w : world) (file : UploadFile)
    (query : option string) (st : state) :
  PyStr.endswith (PyStr.lower (filename file)) ".pdf" = true →
  fst (analyze_document w file query st)
  = match fst (analyze_try w file query (uuid4 w) (storage_path (uuid4 w)) st)
    with
    | Ok a => Ok a
    | Raised e => Raised (handled w e)
    end.
Proof.
  intros Hpdf. rewrite (analyze_document_pdf _ _ _ _ Hpdf).
  unfold try_finally, try_except.
  destruct (analyze_try _ _ _ _ _ st) as [[a|e] st1]; simpl.
  - now destruct (cleanup_ok w (storage_path (uuid4 w)) st1) as (st2 & ->).
  - destruct (analyze_except_handled w e st1) as (st2 & ->).
    now destruct (cleanup_ok w (storage_path (uuid4 w)) st2) as (st3 & ->).
Qed.

Lemma analyze_try_raises (Q : exn → Prop) (w : world) (file : UploadFile)
    (query : option string) (file_id file_path : string) :
  (∀ m, Q (Exception m)) →
  Q (HTTPException 400 "Uploaded file is empty") →
  (∀ e, makedirs_error w = Some e → Q e) →
  (∀ e, open_error w = Some e → Q e) →
  (∀ e, write_error w = Some e → Q e) →
  (∀ q, raises Q (run_crew w q file_path)) →
  raises Q (analyze_try w file query file_id file_path).
Proof.
  intros HE H400 Hmk Hop Hwr Hrun. unfold analyze_try.
  apply raises_bind; [now apply raises_os_makedirs|]. intros _.
  apply raises_bind; [apply raises_emit|]. intros _.
  apply raises_bind.
  - unfold save_upload.
    apply raises_bind; [now apply raises_open_wb|]. intros _.
    destruct (Nat.eqb _ _); [now apply raises_raise|].
    apply raises_bind; [now apply raises_f_write|]. intros _.
    apply raises_ret.
  - intros content.
    apply raises_bind; [apply raises_emit|]. intros _.
    apply raises_bind; [apply raises_yield_to_others|]. intros _.
    apply raises_bind; [apply Hrun|]. intros result.
    apply raises_bind; [apply raises_emit|]. intros _.
    apply raises_ret.
Qed.

(** X2.  The handler's 404 answer comes from the system calls of the save
    only: when neither [os.makedirs], nor [open], nor [write] raises
    [FileNotFoundError], every error answer to an upload with a [.pdf]
    name has status 500, whatever the pipeline does. *)
Theorem not_found_only_from_save (w : world) (file : UploadFile)
    (field : option string) (st : state) (err : ErrorResult) :
  PyStr.endswith (PyStr.lower (filename file)) ".pdf" = true →
  (∀ e, makedirs_error w = Some e → not_file_not_found e) →
  (∀ e, open_error w = Some e → not_file_not_found e) →
  (∀ e, write_error w = Some e → not_file_not_found e) →
  fst (post_analyze w file field st) = Failure err →
  status_code err = 500.
Proof.
  intros Hpdf Hmk Hop Hwr. unfold post_analyze.
  pose proof (analyze_document_fst w file (form_query field) st Hpdf) as Hfst.
  destruct (analyze_document w file (form_query field) st) as [r st'].
  simpl in *. subst r.
  destruct (analyze_try _ _ _ _ _ st) as [[a|e] st1] eqn:E; simpl;
    [discriminate|].
  assert (not_file_not_found e) as Hne.
  { eapply (analyze_try_raises not_file_not_found); try exact E; simpl; auto.
    intros q. apply run_crew_raises_exception. }
  destruct e; simpl in *; [| contradiction |]; now intros [= <-].
Qed.

Lemma not_found_only_from_save_witness :
  fst (post_analyze (sweeping_world "0b5c") sample_pdf None empty_disk)
  = Failure (mkError true 500
               ("Error processing financial document: Analysis failed: "
                  +:+ "Financial document not found at: "
                  +:+ "data/financial_document_0b5c.pdf")
               "HTTP Exception")
  ∧ status_code
      (mkError true 500
         ("Error processing financial document: Analysis failed: "
            +:+ "Financial document not found at: "
            +:+ "data/financial_document_0b5c.pdf")
         "HTTP Exception") = 500.
Proof.
  assert (fst (post_analyze (sweeping_world "0b5c") sample_pdf None empty_disk)
          = Failure (mkError true 500
                       ("Error processing financial document: Analysis failed: "
                          +:+ "Financial document not found at: "
                          +:+ "data/financial_document_0b5c.pdf")
                       "HTTP Exception")) as E
      by (vm_compute; reflexivity).
  split; [exact E|].
  apply (not_found_only_from_save (sweeping_world "0b5c") sample_pdf None
           empty_disk);
    [reflexivity | discriminate | discriminate | discriminate | exact E].
Defined.

(** X3.  When [open] raises [FileNotFoundError] (the data directory went
    away after [os.makedirs]), the answer is the 404 error with the
    message of the exception after ["File processing error: "]. *)
Theorem open_not_found_is_404 (w : world) (file : UploadFile)
    (field : option string) (st : state) (msg : string) :
  PyStr.endswith (PyStr.lower (filename file)) ".pdf" = true →
  files st !! "data" = None → makedirs_error w = None →
  open_error w = Some (FileNotFoundError msg) →
  fst (post_analyze w file field st)
  = Failure (mkError true 404 ("File processing error: " +:+ msg)
               "HTTP Exception").
Proof.
  intros Hpdf Hdata Hmk Hop. unfold post_analyze.
  pose proof (analyze_document_fst w file (form_query field) st Hpdf) as Hfst.
  destruct (analyze_document w file (form_query field) st) as [r st'].
  simpl in *. subst r.
  unfold analyze_try, save_upload, mbind, M_bind, bind, os_makedirs, open_wb,
    logger_info, emit.
  simpl. rewrite Hdata, Hmk, Hop.
  now destruct (bool_decide ("data" ∈ dirs st)).
Qed.

Lemma open_not_found_is_404_witness :
  fst (post_analyze
         (mkWorld "0b5c" None
            (Some (FileNotFoundError
                     "[Errno 2] No such file or directory: 'data/x.pdf'"))
            None None (fun f => f) (fun q p f => (Ok "report", f))
            (fun _ => Ok []) (fun sc d => d))
         sample_pdf None empty_disk)
  = Failure (mkError true 404
               ("File processing error: "
                  +:+ "[Errno 2] No such file or directory: 'data/x.pdf'")
               "HTTP Exception").
Proof.
  apply (open_not_found_is_404
           (mkWorld "0b5c" None
              (Some (FileNotFoundError
                       "[Errno 2] No such file or directory: 'data/x.pdf'"))
              None None (fun f => f) (fun q p f => (Ok "report", f))
              (fun _ => Ok []) (fun sc d => d))
           sample_pdf None empty_disk);
    reflexivity.
Defined.

Lemma analyze_success_witness :
  fst (post_analyze (calm_world "0b5c") sample_pdf
         (Some "  What is the margin? ") empty_disk)
  = Success (mkResult "success"
               (clean_query (form_query (Some "  What is the margin? ")))
               "Report on: What is the margin?"
               (filename sample_pdf) (length (read sample_pdf))
               (uuid4 (calm_world "0b5c"))).
Proof.
  apply (analyze_success (calm_world "0b5c") sample_pdf
           (Some "  What is the margin? ") empty_disk
           "Report on: What is the margin?"
           (<["data/financial_document_0b5c.pdf" := read sample_pdf]>
              (<["data/financial_document_0b5c.pdf" := []]> ∅)));
    [ reflexivity | discriminate | reflexivity | reflexivity | reflexivity
    | reflexivity | eexists; reflexivity | reflexivity ].
Defined.

(** X5.  When the save succeeds and the file is still there, but the
    pipeline raises, the answer is the 500 error whose message is
    ["Error processing financial document: Analysis failed: "] followed
    by the text of what the pipeline raised.  This holds whatever the
    class of that exception: a [FileNotFoundError] or an [HTTPException]
    of the pipeline is answered with 500 too. *)
Theorem pipeline_failure_is_500 (w : world) (file : UploadFile)
    (field : option string) (st : state) (cause : exn)
    (f' : gmap string (list byte)) :
  PyStr.endswith (PyStr.lower (filename file)) ".pdf" = true →
  read file ≠ [] →
  files st !! "data" = None → makedirs_error w = None →
  open_error w = None → write_error w = None →
  let path := storage_path (uuid4 w) in
  let saved :=
    other_processes w (<[path := read file]> (<[path := []]> (files st))) in
  is_Some (saved !! path) →
  crew_kickoff w (clean_query (form_query field)) path saved
  = (Raised cause, f') →
  fst (post_analyze w file field st)
  = Failure (mkError true 500
               ("Error processing financial document: Analysis failed: "
                  +:+ str_exn w cause)
               "HTTP Exception").
Proof.
  intros Hpdf Hne Hdata Hmk Hop Hwr path saved Hthere Hk.
  unfold post_analyze.
  pose proof (analyze_document_fst w file (form_query field) st Hpdf) as Hfst.
  destruct (analyze_document w file (form_query field) st) as [r st'].
  simpl in *. subst r.
  destruct (analyze_try_saved w file (form_query field) st Hne Hdata Hmk Hop Hwr)
    as (st1 & -> & Hf & Hd).
  fold path in Hf |- *. fold saved in Hf.
  destruct (run_crew_kickoff_raises w (clean_query (form_query field)) path
              cause st1 f') as (st2 & Hrun).
  - unfold path_exists. rewrite Hf. now rewrite bool_decide_eq_true_2.
  - now rewrite crew_query_clean_query, Hf.
  - unfold mbind, M_bind, bind. rewrite Hrun. reflexivity.
Qed.

Lemma pipeline_failure_is_500_witness :
  fst (post_analyze (failing_world "0b5c") sample_pdf None empty_disk)
  = Failure (mkError true 500
               ("Error processing financial document: Analysis failed: "
                  +:+ str_exn (failing_world "0b5c")
                        (FileNotFoundError "model.bin is missing"))
               "HTTP Exception").
Proof.
  apply (pipeline_failure_is_500 (failing_world "0b5c") sample_pdf None
           empty_disk (FileNotFoundError "model.bin is missing")
           (<["data/financial_document_0b5c.pdf" := read sample_pdf]>
              (<["data/financial_document_0b5c.pdf" := []]> ∅)));
    [ reflexivity | discriminate | reflexivity | reflexivity | reflexivity
    | reflexivity | eexists; reflexivity | reflexivity ].
Defined.



(** ** POST /analyze: the order of the events *)

Lemma analyze_body_emits (P : event → Prop) (w : world)
    (file : UploadFile) (query : option string) (file_id file_path : string) :
  (∀ m, P (LogInfo m)) → (∀ m, P (LogError m)) →
  P (OsMakedirs "data") → P (OsOpenWb file_path) →
  (∀ n, P (OsWrite file_path n)) →
  (∀ q, P (CrewKickoff q file_path)) →
  emits P (try_except (analyze_try w file query file_id file_path)
                      (analyze_except w)).
Proof.
  intros Hi He Hm Ho Hf Hk. apply emits_try_except.
  - unfold analyze_try.
    apply emits_bind; [now apply emits_os_makedirs|]. intros _.
    apply emits_bind; [apply emits_emit, Hi|]. intros _.
    apply emits_bind.
    + unfold save_upload.
      apply emits_bind; [now apply emits_open_wb|]. intros _.
      destruct (Nat.eqb _ _); [apply emits_raise|].
      apply emits_bind; [apply emits_f_write, Hf|]. intros _.
      apply emits_ret.
    + intros content.
      apply emits_bind; [apply emits_emit, Hi|]. intros _.
      apply emits_bind; [apply emits_yield_to_others|]. intros _.
      apply emits_bind; [now apply run_crew_emits|]. intros result.
      apply emits_bind; [apply emits_emit, Hi|]. intros _.
      apply emits_ret.
  - intros e. unfold analyze_except.
    destruct e; (apply emits_bind; [apply emits_emit, He|]; intros _;
                 apply emits_raise).
Qed.

(** X7.  The clean-up comes last.  The events of a request are those of
    the save and of the pipeline, none of them a removal, followed by
    nothing or by exactly one [os.remove] on the request's path and the
    log record of its outcome: the file is removed at most once, and
    after every write and every run of the pipeline of the request. *)
Theorem removal_comes_last (w : world) (file : UploadFile)
    (query : option string) (st : state) :
  ∃ evs tail,
    log (snd (analyze_document w file query st)) = log st ++ evs ++ tail
    ∧ Forall not_removal evs
    ∧ (tail = []
       ∨ ∃ last, tail = [OsRemove (storage_path (uuid4 w)); last]
                 ∧ is_log_record last).
Proof.
  destruct (PyStr.endswith (PyStr.lower (filename file)) ".pdf") eqn:Hpdf.
  - rewrite (analyze_document_pdf _ _ _ _ Hpdf). unfold try_finally.
    destruct (analyze_body_emits not_removal w file query (uuid4 w)
                (storage_path (uuid4 w))) with (st := st)
      as (evs & E & F); simpl; auto.
    destruct (try_except _ _ st) as [r st1]. simpl in E.
    exists evs.
    unfold cleanup, mbind, M_bind, bind, os_path_exists, try_except, os_remove.
    destruct (path_exists st1 (storage_path (uuid4 w))).
    + destruct (remove_error w) as [e|]; simpl; rewrite E;
        eexists; (split; [now rewrite <- !app_assoc|]);
        (split; [exact F|]); right; eexists; split; try reflexivity; exact I.
    + simpl. exists []. rewrite E, app_nil_r. auto.
  - exists [], []. unfold analyze_document. rewrite Hpdf. simpl.
    rewrite app_nil_r. auto.
Qed.

(** ** POST /analyze: what the handler leaves alone *)

#[local] Instance same_environment_refl : Reflexive same_environment.
Proof. intros st. unfold same_environment. set_solver. Qed.

#[local] Instance same_environment_trans : Transitive same_environment.
Proof.
  intros a b c (E1 & S1 & T1) (E2 & S2 & T2). unfold same_environment.
  split; [congruence|]. split; [etransitivity; eassumption|].
  intros x Hx. apply T2 in Hx. apply elem_of_union in Hx as [Hx|Hx].
  - apply elem_of_union. now left.
  - now apply T1.
Qed.

#[local] Instance same_files_but_refl (path : string) :
  Reflexive (same_files_but path).
Proof. now intros st p _. Qed.

#[local] Instance same_files_but_trans (path : string) :
  Transitive (same_files_but path).
Proof. intros a b c H1 H2 p Hp. now rewrite H2, H1. Qed.






Lemma preserves_files_step {A : Type} (path : string) (m : M A) :
  (∀ st p, p ≠ path → files (snd (m st)) !! p = files st !! p) →
  preserves (same_files_but path) m.
Proof. intros H st p Hp. now apply H. Qed.

Lemma try_finally_state {A : Type} (body : M A) (final : M unit) (st : state) :
  snd (try_finally body final st) = snd (final (snd (body st))).
Proof.
  unfold try_finally. destruct (body st) as [r st1]. simpl.
  now destruct (final st1) as [[[]|e] st2].
Qed.

Lemma cleanup_removes (w : world) (file_path : string) (st : state) :
  remove_error w = None →
  files (snd (cleanup w file_path st)) !! file_path = None.
Proof.
  intros Hrm.
  unfold cleanup, mbind, M_bind, bind, os_path_exists, try_except, os_remove.
  destruct (path_exists st file_path) eqn:Hex; simpl.
  - rewrite Hrm. simpl. apply lookup_delete_eq.
  - now apply path_exists_false.
Qed.

Lemma analyze_document_files (w : world) (file : UploadFile)
    (query : option string) :
  (∀ f, other_processes w f = f) →
  (∀ q p f, snd (crew_kickoff w q p f) = f) →
  preserves (same_files_but (storage_path (uuid4 w)))
            (analyze_document w file query).
Proof.
  intros Hquiet Hpipe. unfold analyze_document.
  destruct (negb _); [apply preserves_raise; apply _|].
  set (path := storage_path (uuid4 w)).
  apply preserves_try_finally; [apply _ | |].
  - apply preserves_try_except; [apply _ | |].
    + unfold analyze_try.
      apply preserves_bind; [apply _ | |].
      { apply preserves_files_step. intros st p _. unfold os_makedirs.
        now repeat case_match. }
      intros _.
      apply preserves_bind; [apply _ | now apply preserves_files_step|].
      intros _. apply preserves_bind; [apply _ | |].
      * apply preserves_files_step. intros st p Hp.
        unfold save_upload, mbind, M_bind, bind, open_wb, f_write.
        destruct (open_error w); simpl; [reflexivity|].
        destruct (Nat.eqb _ _); simpl; [now rewrite lookup_insert_ne|].
        destruct (write_error w); simpl; now rewrite !lookup_insert_ne.
      * intros content.
        apply preserves_bind; [apply _ | now apply preserves_files_step|].
        intros _. apply preserves_bind; [apply _ | |].
        { apply preserves_files_step. intros st p _. simpl.
          now rewrite Hquiet. }
        intros _. apply preserves_bind; [apply _ | |].
        { apply preserves_files_step. intros st p _.
          unfold run_crew, try_except, mbind, M_bind, bind, os_path_exists,
            kickoff, logger_info, logger_error, emit.
          destruct (path_exists st path); simpl; [|reflexivity].
          pose proof (Hpipe (crew_query (clean_query query)) path (files st))
            as Hf.
          destruct (crew_kickoff w (crew_query (clean_query query)) path
                      (files st)) as [[report|e] f']; simpl in *; now subst f'. }
        intros result.
        apply preserves_bind; [apply _ | now apply preserves_files_step|].
        intros _. apply preserves_ret; apply _.
    + intros e. apply preserves_files_step. intros st p _.
      now destruct e.
  - apply preserves_files_step. intros st p Hp.
    unfold cleanup, mbind, M_bind, bind, os_path_exists, try_except, os_remove.
    destruct (path_exists st path); simpl; [|reflexivity].
    destruct (remove_error w); simpl; [reflexivity|].
    now rewrite lookup_delete_ne.
Qed.

(** X9.  When no other process and no pipeline tool writes to the disk,
    the handler is the only writer: every file but the one at the
    request's own path is after the request what it was before.  If,
    moreover, [os.remove] does not fail and the path was free, the files
    on disk after the request are exactly the files before it, whatever
    the upload and the outcome. *)
Theorem disk_restored (w : world) (file : UploadFile) (query : option string)
    (st : state) :
  (∀ f, other_processes w f = f) →
  (∀ q p f, snd (crew_kickoff w q p f) = f) →
  same_files_but (storage_path (uuid4 w)) st
    (snd (analyze_document w file query st))
  ∧ (remove_error w = None →
     files st !! storage_path (uuid4 w) = None →
     files (snd (analyze_document w file query st)) = files st).
Proof.
  intros Hquiet Hpipe.
  pose proof (analyze_document_files w file query Hquiet Hpipe st) as Hframe.
  split; [exact Hframe|]. intros Hrm Hfree. apply map_eq. intros p.
  destruct (decide (p = storage_path (uuid4 w))) as [->|Hp];
    [|now apply Hframe].
  rewrite Hfree.
  destruct (PyStr.endswith (PyStr.lower (filename file)) ".pdf") eqn:Hpdf.
  - rewrite (analyze_document_pdf _ _ _ _ Hpdf), try_finally_state.
    now apply cleanup_removes.
  - unfold analyze_document. rewrite Hpdf. exact Hfree.
Qed.

Lemma disk_restored_witness :
  same_files_but (storage_path (uuid4 (calm_world "0b5c")))
    (mkState {["data/ledger.pdf" := [x25]]} {["data"]} ∅ [])
    (snd (analyze_document (calm_world "0b5c") sample_pdf None
            (mkState {["data/ledger.pdf" := [x25]]} {["data"]} ∅ [])))
  ∧ (remove_error (calm_world "0b5c") = None →
     files (mkState {["data/ledger.pdf" := [x25]]} {["data"]} ∅ [])
       !! storage_path (uuid4 (calm_world "0b5c")) = None →
     files (snd (analyze_document (calm_world "0b5c") sample_pdf None
                   (mkState {["data/ledger.pdf" := [x25]]} {["data"]} ∅ [])))
     = files (mkState {["data/ledger.pdf" := [x25]]} {["data"]} ∅ [])).
Proof.
  apply (disk_restored (calm_world "0b5c") sample_pdf None
           (mkState {["data/ledger.pdf" := [x25]]} {["data"]} ∅ []));
    reflexivity.
Defined.

Example disk_restored_run :
  files (snd (analyze_document (calm_world "0b5c") sample_pdf None
                (mkState {["data/ledger.pdf" := [x25]]} {["data"]} ∅ [])))
  = {["data/ledger.pdf" := [x25]]}.
Proof. vm_compute. reflexivity. Qed.

(** ** Strings: what stripping and replacing keep *)

Section SubstringFacts.
Import PyStr.

Lemma app_assoc_s (a b c : string) : (a +:+ b) +:+ c = a +:+ (b +:+ c).
Proof.
  induction a as [|x a IH]; [reflexivity|].
  rewrite !app_cons. now rewrite IH.
Qed.

Lemma app_empty_r (a : string) : a +:+ "" = a.
Proof. induction a as [|x a IH]; [reflexivity|]. rewrite app_cons. now rewrite IH. Qed.

Lemma prefix_cons (b c : ascii) (sub s : string) :
  String.prefix (String b sub) (String c s)
  = Ascii.eqb b c && String.prefix sub s.
Proof.
  simpl. destruct (ascii_dec b c) as [->|Hne].
  - now rewrite Ascii.eqb_refl.
  - apply Ascii.eqb_neq in Hne. now rewrite Hne.
Qed.

Lemma prefix_app (sub s t : string) :
  String.prefix sub s = true → String.prefix sub (s +:+ t) = true.
Proof.
  revert s. induction sub as [|b sub IH]; intros s H;
    [now destruct (s +:+ t)|].
  destruct s as [|c s]; [discriminate|].
  rewrite app_cons, prefix_cons in *.
  apply andb_true_iff in H as [-> H]. simpl. now apply IH.
Qed.

Lemma contains_cons (sub : string) (c : ascii) (s : string) :
  contains sub (String c s) = String.prefix sub (String c s) || contains sub s.
Proof. reflexivity. Qed.

Lemma contains_app_l (sub s t : string) :
  contains sub s = true → contains sub (s +:+ t) = true.
Proof.
  induction s as [|c s IH]; intros H.
  - simpl in H. rewrite orb_false_r in H. destruct sub; [|discriminate].
    now destruct t.
  - rewrite app_cons, contains_cons in *.
    apply orb_true_iff in H as [H|H]; apply orb_true_iff.
    + left. rewrite <- app_cons. now apply prefix_app.
    + right. now apply IH.
Qed.

Lemma contains_app_r (sub s t : string) :
  contains sub t = true → contains sub (s +:+ t) = true.
Proof.
  intros H. induction s as [|c s IH]; [exact H|].
  rewrite app_cons, contains_cons, IH. apply orb_true_r.
Qed.

Lemma contains_empty (b : ascii) (sub : string) :
  contains (String b sub) "" = false.
Proof. reflexivity. Qed.

(** An occurrence cannot begin inside a stretch that lacks its first
    character. *)
Lemma contains_skip (b : ascii) (sub old rest : string) :
  all_chars (fun d => negb (Ascii.eqb b d)) old = true →
  contains (String b sub) (old +:+ rest) = contains (String b sub) rest.
Proof.
  induction old as [|c old IH]; intros H; [reflexivity|].
  simpl in H. apply andb_true_iff in H as [Hc H].
  rewrite app_cons, contains_cons, prefix_cons.
  apply negb_true_iff in Hc. rewrite Hc. simpl. now apply IH.
Qed.

Lemma replace_cons_other (a c : ascii) (old new r : string) :
  Ascii.eqb c a = false →
  replace (String a old) new (String c r)
  = String c (replace (String a old) new r).
Proof.
  intros Hne. rewrite replace_unfold by discriminate.
  rewrite prefix_cons, Ascii.eqb_sym, Hne. reflexivity.
Qed.

Lemma prefix_replace (a : ascii) (old new sub : string) :
  all_chars (fun c => negb (Ascii.eqb c a)) sub = true →
  ∀ s, String.prefix sub s = true →
       String.prefix sub (replace (String a old) new s) = true.
Proof.
  induction sub as [|b sub IH]; intros Hsub s H;
    [now destruct (replace (String a old) new s)|].
  simpl in Hsub. apply andb_true_iff in Hsub as [Hb Hsub].
  apply negb_true_iff in Hb.
  destruct s as [|c s]; [discriminate|].
  rewrite prefix_cons in H. apply andb_true_iff in H as [Hbc H].
  apply Ascii.eqb_eq in Hbc. subst c.
  rewrite replace_cons_other by exact Hb.
  rewrite prefix_cons, Ascii.eqb_refl. simpl. now apply IH.
Qed.

Lemma disjoint_chars_cons (b : ascii) (sub : string) (a : ascii) (old : string) :
  disjoint_chars (String b sub) (String a old) = true →
  all_chars (fun d => negb (Ascii.eqb b d)) (String a old) = true
  ∧ all_chars (fun c => negb (Ascii.eqb c a)) (String b sub) = true.
Proof.
  unfold disjoint_chars. simpl. intros H.
  apply andb_true_iff in H as [Hb H]. split; [exact Hb|].
  apply andb_true_iff in Hb as [Hba _]. rewrite Hba. simpl.
  induction sub as [|c sub IH]; [reflexivity|].
  simpl in *. apply andb_true_iff in H as [Hc H].
  apply andb_true_iff in Hc as [-> _]. simpl. now apply IH.
Qed.

(** Replacing a pattern keeps every occurrence of a string that shares
    no character with the pattern. *)
Lemma contains_replace (sub old new : string) :
  sub ≠ "" → old ≠ "" → disjoint_chars sub old = true →
  ∀ s, contains sub s = true → contains sub (replace old new s) = true.
Proof.
  intros Hsub Hold Hdis.
  destruct sub as [|b sub]; [contradiction|].
  destruct old as [|a old]; [contradiction|].
  destruct (disjoint_chars_cons b sub a old Hdis) as [Hb Ha].
  assert (∀ n s, (String.length s < n)%nat →
                 contains (String b sub) s = true →
                 contains (String b sub) (replace (String a old) new s) = true)
    as H;
    [|intros s Hs; apply (H (S (String.length s))); [lia | exact Hs]].
  induction n as [|n IH]; intros s Hn Hs; [lia|].
  rewrite replace_unfold by discriminate.
  destruct (String.prefix (String a old) s) eqn:Hp.
  - apply contains_app_r. apply IH.
    + pose proof (drop_shorter (String a old) s) as Hd.
      specialize (Hd ltac:(discriminate) Hp). lia.
    + apply prefix_drop in Hp. rewrite Hp in Hs.
      now rewrite contains_skip in Hs.
  - destruct s as [|c s]; [discriminate|].
    rewrite contains_cons in Hs. apply orb_true_iff in Hs as [Hs|Hs].
    + pose proof (prefix_replace a old new (String b sub) Ha _ Hs) as Hr.
      rewrite replace_unfold, Hp in Hr by discriminate.
      rewrite contains_cons, Hr. reflexivity.
    + rewrite contains_cons. apply orb_true_iff. right.
      apply IH; [simpl in Hn; lia | exact Hs].
Qed.

Lemma contains_lstrip (sub s : string) :
  sub ≠ "" → no_space sub = true →
  contains sub s = true → contains sub (lstrip s) = true.
Proof.
  intros Hsub Hns. destruct sub as [|b sub]; [contradiction|].
  unfold no_space in Hns. simpl in Hns.
  apply andb_true_iff in Hns as [Hb _]. apply negb_true_iff in Hb.
  induction s as [|c s IH]; intros H; [exact H|].
  simpl. destruct (isspace c) eqn:Hc; [|exact H].
  apply IH. rewrite contains_cons, prefix_cons in H.
  destruct (Ascii.eqb b c) eqn:E; [|exact H].
  apply Ascii.eqb_eq in E. congruence.
Qed.

Lemma rstrip_cons (c : ascii) (s : string) :
  rstrip s ≠ "" → rstrip (String c s) = String c (rstrip s).
Proof.
  intros H. simpl. apply String.eqb_neq in H. rewrite H.
  now rewrite andb_false_r.
Qed.

Lemma rstrip_cons_text (c : ascii) (s : string) :
  isspace c = false → rstrip (String c s) = String c (rstrip s).
Proof. intros H. simpl. now rewrite H. Qed.

Lemma prefix_rstrip (sub : string) :
  sub ≠ "" → no_space sub = true →
  ∀ s, String.prefix sub s = true → String.prefix sub (rstrip s) = true.
Proof.
  induction sub as [|b sub IH]; intros Hsub Hns s H; [contradiction|].
  unfold no_space in Hns. simpl in Hns.
  apply andb_true_iff in Hns as [Hb Hns]. apply negb_true_iff in Hb.
  destruct s as [|c s]; [discriminate|].
  rewrite prefix_cons in H. apply andb_true_iff in H as [Hbc H].
  apply Ascii.eqb_eq in Hbc. subst c.
  destruct sub as [|b' sub].
  - rewrite (rstrip_cons_text b s Hb), prefix_cons, Ascii.eqb_refl.
    now destruct (rstrip s).
  - assert (String.prefix (String b' sub) (rstrip s) = true) as Hr
        by (apply IH; [discriminate | exact Hns | exact H]).
    rewrite rstrip_cons.
    + rewrite prefix_cons, Ascii.eqb_refl. exact Hr.
    + intros E. rewrite E in Hr. discriminate.
Qed.

Lemma contains_rstrip (sub s : string) :
  sub ≠ "" → no_space sub = true →
  contains sub s = true → contains sub (rstrip s) = true.
Proof.
  intros Hsub Hns.
  induction s as [|c s IH]; intros H; [exact H|].
  rewrite contains_cons in H. apply orb_true_iff in H as [H|H].
  - pose proof (prefix_rstrip sub Hsub Hns _ H) as Hr.
    destruct (rstrip (String c s)) as [|d r] eqn:E.
    + destruct sub; [contradiction | discriminate].
    + rewrite contains_cons, Hr. reflexivity.
  - specialize (IH H).
    rewrite rstrip_cons.
    + rewrite contains_cons, IH. apply orb_true_r.
    + intros E. rewrite E in IH. destruct sub; [contradiction | discriminate].
Qed.

Lemma contains_strip (sub s : string) :
  sub ≠ "" → no_space sub = true →
  contains sub s = true → contains sub (strip s) = true.
Proof.
  intros Hsub Hns H. unfold strip.
  now apply contains_rstrip, contains_lstrip.
Qed.

Lemma lstrip_text (c : ascii) (s : string) :
  isspace c = false → lstrip (String c s) = String c s.
Proof. intros H. simpl. now rewrite H. Qed.

Lemma rstrip_rstrip (s : string) : rstrip (rstrip s) = rstrip s.
Proof.
  induction s as [|c s IH]; [reflexivity|].
  simpl. destruct (isspace c && String.eqb (rstrip s) "") eqn:E; [reflexivity|].
  simpl. now rewrite IH, E.
Qed.

(** Stripping twice is stripping once. *)
Lemma strip_strip (s : string) : strip (strip s) = strip s.
Proof.
  destruct (strip_head s) as [E|(c & r & E & Hc)]; [now rewrite E|].
  unfold strip at 1. rewrite E, (lstrip_text c r Hc), <- E.
  unfold strip. apply rstrip_rstrip.
Qed.

End SubstringFacts.

(** ** The text extractor: markers and text *)

Lemma prefix_self_app (p x : string) : String.prefix p (p +:+ x) = true.
Proof.
  induction p as [|c p IH]; [now destruct x|].
  now rewrite app_cons, prefix_cons, Ascii.eqb_refl.
Qed.

(** Every block the loop adds begins with the page marker. *)
Lemma read_pages_marker (w : world) (pages : list (result (result string))) :
  ∀ (page_num : nat) (acc t : string) (st st' : state),
    read_pages w page_num pages acc st = (Ok t, st') →
    acc = "" ∨ String.prefix page_marker acc = true →
    t = "" ∨ String.prefix page_marker t = true.
Proof.
  induction pages as [|next rest IH]; intros page_num acc t st st' H Hacc.
  - injection H as <- _. exact Hacc.
  - simpl in H. unfold mbind, M_bind, bind, try_except, next_page,
      extract_text in H.
    assert (∀ block, String.prefix page_marker (acc +:+ page_marker +:+ block)
                     = true) as Hblock.
    { intros block. destruct Hacc as [E|Hp].
      - rewrite E. apply (prefix_self_app page_marker block).
      - now apply prefix_app. }
    destruct next as [[text|e]|e]; [| |discriminate].
    + destruct (PyStr.truthy (PyStr.strip text)).
      * eapply IH; [exact H|]. right. apply Hblock.
      * eapply IH; [exact H | exact Hacc].
    + eapply IH; [exact H|]. right. apply Hblock.
Qed.

(** Stripping the right end keeps a prefix whose last character is not
    white space. *)
Lemma prefix_rstrip_last (pre : string) (c : ascii) :
  PyStr.isspace c = false →
  ∀ s, String.prefix (pre +:+ String c "") s = true →
       String.prefix (pre +:+ String c "") (PyStr.rstrip s) = true.
Proof.
  intros Hc. induction pre as [|b pre IH]; intros s H.
  - change ("" +:+ String c "") with (String c "") in *.
    destruct s as [|d s]; [discriminate|].
    rewrite prefix_cons in H. apply andb_true_iff in H as [Hd _].
    apply Ascii.eqb_eq in Hd. subst d.
    rewrite (rstrip_cons_text c s Hc), prefix_cons, Ascii.eqb_refl.
    now destruct (PyStr.rstrip s).
  - rewrite app_cons in *. destruct s as [|d s]; [discriminate|].
    rewrite prefix_cons in H. apply andb_true_iff in H as [Hd H].
    apply Ascii.eqb_eq in Hd. subst d.
    specialize (IH s H). rewrite rstrip_cons.
    + now rewrite prefix_cons, Ascii.eqb_refl.
    + intros E. rewrite E in IH. now destruct pre.
Qed.

Lemma starts_with_marker (t : string) :
  String.prefix page_marker t = true →
  String.prefix "--- Page"
    (PyStr.strip (PyStr.replace (nl +:+ nl +:+ nl) (nl +:+ nl) t)) = true.
Proof.
  intros Hp. apply prefix_drop in Hp.
  set (rest := PyStr.drop (String.length page_marker) t) in Hp.
  rewrite Hp. clear Hp.
  set (X := "--- Page " +:+ rest).
  change (page_marker +:+ rest) with (String (ascii_of_N 10) X).
  change (nl +:+ nl +:+ nl) with (String (ascii_of_N 10) (nl +:+ nl)).
  assert (String.prefix "--- Page" X = true) as HX
      by apply (prefix_self_app "--- Page" (" " +:+ rest)).
  pose proof (prefix_replace (ascii_of_N 10) (nl +:+ nl) (nl +:+ nl)
                "--- Page" eq_refl X HX) as HY.
  set (Y := PyStr.replace (String (ascii_of_N 10) (nl +:+ nl)) (nl +:+ nl) X)
    in HY |- *.
  assert (PyStr.replace (String (ascii_of_N 10) (nl +:+ nl)) (nl +:+ nl)
            (String (ascii_of_N 10) X) = String (ascii_of_N 10) Y) as ->.
  { rewrite replace_unfold by discriminate. reflexivity. }
  unfold PyStr.strip.
  change (PyStr.lstrip (String (ascii_of_N 10) Y)) with (PyStr.lstrip Y).
  destruct Y as [|c Y']; [discriminate|].
  rewrite prefix_cons in HY. apply andb_true_iff in HY as [Hc HY].
  apply Ascii.eqb_eq in Hc. subst c.
  rewrite lstrip_text by reflexivity.
  apply (prefix_rstrip_last "--- Pag" "e"%char); [reflexivity|].
  change ("--- Pag" +:+ String "e" "") with "--- Page".
  now rewrite prefix_cons, HY.
Qed.

(** The extractor's result, case by case. *)
Lemma read_data_tool_cases (w : world) (path : string) (st : state) :
  fst (read_data_tool w path st)
  = Ok (if path_exists st path
        then match pdf_reader w path with
             | Raised e => "Error reading PDF file: " +:+ str_exn w e
             | Ok pages =>
                 match fst (read_pages w 0 pages "" st) with
                 | Raised e => "Error reading PDF file: " +:+ str_exn w e
                 | Ok full_text =>
                     if String.eqb (PyStr.strip full_text) ""
                     then "Error: No readable text found in the PDF document"
                     else PyStr.strip
                            (PyStr.replace (nl +:+ nl +:+ nl) (nl +:+ nl)
                               full_text)
                 end
             end
        else "Error: File not found at path: " +:+ path).
Proof.
  unfold read_data_tool, try_except, mbind, M_bind, bind, os_path_exists,
    PdfReader.
  destruct (path_exists st path); simpl; [|reflexivity].
  destruct (pdf_reader w path) as [pages|e]; [|reflexivity].
  destruct (read_pages_state w pages 0 "" st) as ([t|e] & ->); simpl;
    [|reflexivity].
  unfold PyStr.truthy. rewrite negb_involutive.
  now destruct (String.eqb (PyStr.strip t) "").
Qed.

Lemma marker_is_not_error (s : string) :
  String.prefix "--- Page" s = true → ¬ starts_with_Error s.
Proof.
  unfold starts_with_Error. destruct s as [|c s]; [discriminate|].
  rewrite !prefix_cons. intros [Hc _]%andb_true_iff [He _]%andb_true_iff.
  apply Ascii.eqb_eq in Hc, He. congruence.
Qed.

(** X10.  The prefix ["Error"] tells failure from text.  The extractor's
    result begins with ["Error"] exactly when it has no text to give (the
    file is missing, opening, parsing or iterating it raises, or the pages
    are blank); in every other case the result begins with the marker
    ["--- Page"] of the first page that contributed, whatever the text of
    the document. *)
Theorem error_marker_iff_failure (w : world) (path : string) (st : state)
    (s : string) :
  fst (read_data_tool w path st) = Ok s →
  (starts_with_Error s ↔ extraction_failed w path st)
  ∧ (¬ extraction_failed w path st → String.prefix "--- Page" s = true).
Proof.
  rewrite read_data_tool_cases. intros [= <-]. unfold extraction_failed.
  destruct (path_exists st path) eqn:Hex.
  - destruct (pdf_reader w path) as [pages|e] eqn:Hpdf.
    + destruct (read_pages w 0 pages "" st) as [[t|e] st'] eqn:Hread; simpl.
      * destruct (String.eqb (PyStr.strip t) "") eqn:Hblank.
        -- apply String.eqb_eq in Hblank. split.
           ++ split; [|reflexivity]. intros _. right. right.
              exists pages. split; [reflexivity|]. now rewrite Hread.
           ++ intros Hno. exfalso. apply Hno. right. right.
              exists pages. split; [reflexivity|]. now rewrite Hread.
        -- apply String.eqb_neq in Hblank.
           assert (String.prefix "--- Page"
                     (PyStr.strip
                        (PyStr.replace (nl +:+ nl +:+ nl) (nl +:+ nl) t))
                   = true) as Hmark.
           { apply starts_with_marker.
             destruct (read_pages_marker w pages 0 "" t st st' Hread)
               as [->|Hp]; [now left | now contradiction Hblank | exact Hp]. }
           split; [|intros _; exact Hmark]. split.
           ++ intros He. now apply marker_is_not_error in Hmark.
           ++ intros [?|[(e & ?)|(pages' & [= <-] & Hb)]]; try discriminate.
              rewrite Hread in Hb. simpl in Hb. contradiction.
      * split.
        -- split; [|reflexivity]. intros _. right. right.
           exists pages. split; [reflexivity|]. now rewrite Hread.
        -- intros Hno. exfalso. apply Hno. right. right.
           exists pages. split; [reflexivity|]. now rewrite Hread.
    + split.
      * split; [|reflexivity]. intros _. right. left. eauto.
      * intros Hno. exfalso. apply Hno. right. left. eauto.
  - split.
    + split; [|reflexivity]. intros _. now left.
    + intros Hno. exfalso. apply Hno. now left.
Qed.

Lemma error_marker_iff_failure_witness :
  (starts_with_Error
     ("--- Page 1 ---" +:+ nl +:+ "Error margins widened"
        +:+ nl +:+ nl +:+ "--- Page 2 ---" +:+ nl +:+ "Revenue 10")
   ↔ extraction_failed
       (mkWorld "0b5c" None None None None (fun f => f)
          (fun q p f => (Ok "report", f))
          (fun _ => Ok [Ok (Ok "Error margins widened"); Ok (Ok "Revenue 10")])
          (fun sc d => d))
       "data/sample.pdf"
       (mkState {["data/sample.pdf" := [x25]]} {["data"]} ∅ []))
  ∧ (¬ extraction_failed
         (mkWorld "0b5c" None None None None (fun f => f)
            (fun q p f => (Ok "report", f))
            (fun _ => Ok [Ok (Ok "Error margins widened"); Ok (Ok "Revenue 10")])
            (fun sc d => d))
         "data/sample.pdf"
         (mkState {["data/sample.pdf" := [x25]]} {["data"]} ∅ []) →
     String.prefix "--- Page"
       ("--- Page 1 ---" +:+ nl +:+ "Error margins widened"
          +:+ nl +:+ nl +:+ "--- Page 2 ---" +:+ nl +:+ "Revenue 10") = true).
Proof.
  apply (error_marker_iff_failure
           (mkWorld "0b5c" None None None None (fun f => f)
              (fun q p f => (Ok "report", f))
              (fun _ => Ok [Ok (Ok "Error margins widened"); Ok (Ok "Revenue 10")])
              (fun sc d => d))
           "data/sample.pdf"
           (mkState {["data/sample.pdf" := [x25]]} {["data"]} ∅ [])).
  vm_compute. reflexivity.
Defined.

(** When every page can be fetched the loop returns, and it keeps the
    word [Error]: what the accumulator has of it, and what the marker of
    an unreadable page adds. *)
Lemma read_pages_keeps_Error (w : world) (pages : list (result (result string))) :
  Forall fetched pages →
  ∀ (page_num : nat) (acc : string) (st : state),
    ∃ t, read_pages w page_num pages acc st = (Ok t, st)
         ∧ (PyStr.contains "Error" acc = true → PyStr.contains "Error" t = true)
         ∧ (Exists unreadable pages → PyStr.contains "Error" t = true).
Proof.
  induction 1 as [|next rest Hnext Hrest IH]; intros page_num acc st.
  - exists acc. split; [reflexivity|]. split; [auto|]. now intros H%Exists_nil.
  - simpl. unfold mbind, M_bind, bind, try_except, next_page, extract_text.
    destruct next as [[text|e]|e]; [| |contradiction].
    + destruct (PyStr.truthy (PyStr.strip text)).
      * destruct (IH (S page_num)
                    (acc +:+ nl +:+ "--- Page " +:+ pretty (page_num + 1)%nat
                       +:+ " ---" +:+ nl +:+ text +:+ nl) st)
          as (t & Ht & Hacc & Hex).
        exists t. split; [exact Ht|]. split.
        -- intros H. now apply Hacc, contains_app_l.
        -- intros [(e & [=])|H]%Exists_cons. now apply Hex.
      * destruct (IH (S page_num) acc st) as (t & Ht & Hacc & Hex).
        exists t. split; [exact Ht|]. split; [exact Hacc|].
        intros [(e & [=])|H]%Exists_cons. now apply Hex.
    + destruct (IH (S page_num)
                  (acc +:+ nl +:+ "--- Page " +:+ pretty (page_num + 1)%nat
                     +:+ " (Error reading) ---" +:+ nl) st)
        as (t & Ht' & Hacc & Hex).
      exists t. split; [exact Ht'|].
      assert (PyStr.contains "Error" t = true) as Ht.
      { apply Hacc. do 4 apply contains_app_r. now apply contains_app_l. }
      split; auto.
Qed.

Lemma contains_not_empty (sub s : string) :
  sub ≠ "" → PyStr.contains sub s = true → s ≠ "".
Proof. intros Hsub H ->. destruct sub; [contradiction | discriminate]. Qed.

(** X11.  One unreadable page spoils the document for the helpers.  When
    the file opens and every page can be fetched, but [extract_text]
    raises on at least one page, the extractor still returns text, not an
    error marker; yet the marker it writes for that page contains the
    word [Error], so both helpers refuse the whole text with their
    cannot-analyze message, whatever the other pages hold. *)
Theorem unreadable_page_refused (w : world) (path : string) (st : state)
    (pages : list (result (result string))) :
  path_exists st path = true →
  pdf_reader w path = Ok pages →
  Forall fetched pages →
  Exists unreadable pages →
  ∃ s, fst (read_data_tool w path st) = Ok s
       ∧ ¬ starts_with_Error s
       ∧ analyze_investment_tool s = investment_error
       ∧ create_risk_assessment_tool s = risk_error.
Proof.
  intros Hex Hpdf Hfetched Hbad.
  rewrite read_data_tool_cases, Hex, Hpdf.
  destruct (read_pages_keeps_Error w pages Hfetched 0 "" st)
    as (t & Hread & _ & Ht).
  specialize (Ht Hbad). rewrite Hread. simpl.
  assert (PyStr.strip t ≠ "") as Hblank.
  { apply (contains_not_empty "Error"); [discriminate|].
    now apply contains_strip. }
  apply String.eqb_neq in Hblank. rewrite Hblank.
  eexists. split; [reflexivity|].
  assert (PyStr.contains "Error"
            (PyStr.strip (PyStr.replace (nl +:+ nl +:+ nl) (nl +:+ nl) t))
          = true) as Hs.
  { apply contains_strip; [discriminate | reflexivity |].
    apply contains_replace; [discriminate | discriminate | reflexivity |].
    exact Ht. }
  split.
  - apply marker_is_not_error, starts_with_marker.
    destruct (read_pages_marker w pages 0 "" t st st Hread) as [->|Hp];
      [now left | discriminate | exact Hp].
  - unfold analyze_investment_tool, create_risk_assessment_tool.
    rewrite Hs, !orb_true_r. split; reflexivity.
Qed.

Lemma unreadable_page_refused_witness :
  ∃ s, fst (read_data_tool
              (mkWorld "0b5c" None None None None (fun f => f)
                 (fun q p f => (Ok "report", f))
                 (fun _ => Ok [Ok (Ok "Revenue 10");
                               Ok (Raised (Exception "bad page"))])
                 (fun sc d => d))
              "data/sample.pdf"
              (mkState {["data/sample.pdf" := [x25]]} {["data"]} ∅ []))
       = Ok s
       ∧ ¬ starts_with_Error s
       ∧ analyze_investment_tool s = investment_error
       ∧ create_risk_assessment_tool s = risk_error.
Proof.
  apply (unreadable_page_refused
           (mkWorld "0b5c" None None None None (fun f => f)
              (fun q p f => (Ok "report", f))
              (fun _ => Ok [Ok (Ok "Revenue 10");
                            Ok (Raised (Exception "bad page"))])
              (fun sc d => d))
           "data/sample.pdf"
           (mkState {["data/sample.pdf" := [x25]]} {["data"]} ∅ [])
           [Ok (Ok "Revenue 10"); Ok (Raised (Exception "bad page"))]).
  - reflexivity.
  - reflexivity.
  - repeat constructor.
  - apply Exists_cons_tl, Exists_cons_hd. now exists (Exception "bad page").
Defined.

Lemma read_pages_blank (w : world) (pages : list (result (result string))) :
  Forall blank_page pages →
  ∀ (page_num : nat) (acc : string) (st : state),
    read_pages w page_num pages acc st = (Ok acc, st).
Proof.
  induction 1 as [|next rest Hnext Hrest IH]; intros page_num acc st;
    [reflexivity|].
  simpl. unfold mbind, M_bind, bind, try_except, next_page, extract_text.
  destruct next as [[text|e]|e]; try contradiction.
  simpl in Hnext. rewrite Hnext. simpl. apply IH.
Qed.

(** X12.  A document without text.  When the file opens and has no page
    at all, or every page gives nothing but white space, the extractor
    returns the marker ["Error: No readable text found in the PDF
    document"], and both helpers answer it with their cannot-analyze
    message. *)
Theorem blank_document (w : world) (path : string) (st : state)
    (pages : list (result (result string))) :
  path_exists st path = true →
  pdf_reader w path = Ok pages →
  Forall blank_page pages →
  fst (read_data_tool w path st)
  = Ok "Error: No readable text found in the PDF document"
  ∧ analyze_investment_tool
      "Error: No readable text found in the PDF document" = investment_error
  ∧ create_risk_assessment_tool
      "Error: No readable text found in the PDF document" = risk_error.
Proof.
  intros Hex Hpdf Hblank.
  rewrite read_data_tool_cases, Hex, Hpdf, (read_pages_blank w pages Hblank).
  repeat split.
Qed.

Lemma blank_document_witness :
  fst (read_data_tool
         (mkWorld "0b5c" None None None None (fun f => f)
            (fun q p f => (Ok "report", f))
            (fun _ => Ok [Ok (Ok ("  " +:+ nl)); Ok (Ok "")])
            (fun sc d => d))
         "data/scan.pdf"
         (mkState {["data/scan.pdf" := [x25]]} {["data"]} ∅ []))
  = Ok "Error: No readable text found in the PDF document"
  ∧ analyze_investment_tool
      "Error: No readable text found in the PDF document" = investment_error
  ∧ create_risk_assessment_tool
      "Error: No readable text found in the PDF document" = risk_error.
Proof.
  apply (blank_document
           (mkWorld "0b5c" None None None None (fun f => f)
              (fun q p f => (Ok "report", f))
              (fun _ => Ok [Ok (Ok ("  " +:+ nl)); Ok (Ok "")])
              (fun sc d => d))
           "data/scan.pdf"
           (mkState {["data/scan.pdf" := [x25]]} {["data"]} ∅ [])
           [Ok (Ok ("  " +:+ nl)); Ok (Ok "")]).
  - reflexivity.
  - reflexivity.
  - repeat constructor.
Defined.

(** ** POST /analyze: the echoed query *)

Lemma clean_query_stripped (query : option string) :
  PyStr.strip (clean_query query) = clean_query query.
Proof. unfold clean_query. apply strip_strip. Qed.

(** X13.  The query a successful response echoes is a fixed point of the
    handler's cleaning: sent again as the query of a new request, it is
    the query that request works with, unchanged. *)
Theorem echoed_query_is_stable (w : world) (file : UploadFile)
    (field : option string) (st : state) (r : AnalysisResult) :
  fst (post_analyze w file field st) = Success r →
  clean_query (form_query (Some (query r))) = query r.
Proof.
  intros (st' & H)%post_analyze_success.
  apply analyze_document_returns in H as [-> _]. simpl.
  destruct (clean_query_not_blank (form_query field)) as [Hs Hq].
  unfold clean_query at 1.
  apply truthy_true in Hq. apply String.eqb_neq in Hs.
  rewrite Hq, Hs. simpl. apply clean_query_stripped.
Qed.

Lemma echoed_query_is_stable_witness :
  clean_query
    (form_query
       (Some (query (mkResult "success" "What is the margin?"
                       "Report on: What is the margin?" "report.pdf" 4
                       "0b5c"))))
  = query (mkResult "success" "What is the margin?"
             "Report on: What is the margin?" "report.pdf" 4 "0b5c").
Proof.
  apply (echoed_query_is_stable (calm_world "0b5c") sample_pdf
           (Some "  What is the margin? ") empty_disk).
  vm_compute. reflexivity.
Defined.

(** ** The environment checks *)

Lemma missing_env_vars_spec (vars : list string) (st : state) :
  missing_env_vars vars st = (Ok (missing_in st vars), st).
Proof.
  induction vars as [|var rest IH]; [reflexivity|].
  simpl. unfold mbind, M_bind, bind, os_getenv. rewrite IH. simpl.
  now destruct (PyStr.truthy_opt (environ st !! var)).
Qed.

Lemma check_env_vars_spec (vars : list string) (st : state) :
  check_env_vars vars st
  = (match missing_in st vars with
     | [] => Ok tt
     | var :: _ =>
         Raised (Exception ("Missing required environment variable: " +:+ var))
     end, st).
Proof.
  induction vars as [|var rest IH]; [reflexivity|].
  simpl. unfold mbind, M_bind, bind, os_getenv.
  destruct (PyStr.truthy_opt (environ st !! var)); simpl; [exact IH | reflexivity].
Qed.

Lemma missing_in_required (st : state) :
  missing_in st required_vars = []
  ↔ env_set st "OPENAI_API_KEY" ∧ env_set st "SERPER_API_KEY".
Proof.
  unfold missing_in, required_vars, env_set. simpl.
  rewrite <- !truthy_opt_true.
  destruct (PyStr.truthy_opt (environ st !! "OPENAI_API_KEY"));
    destruct (PyStr.truthy_opt (environ st !! "SERPER_API_KEY")); simpl;
    split; try discriminate; try tauto; intros [? ?]; discriminate.
Qed.

(** X14.  The three start-up checks agree.  The loop of tools.py,
    [validate_environment] of agents.py and the [__main__] block of
    main.py each pass exactly when both required variables are set to a
    value that is not empty.  When some are not, tools.py raises with the
    name of the first missing variable only, agents.py raises with all of
    them joined by commas, and main.py logs that list, prints one line for
    each missing variable after a heading, and exits with code 1 before
    any directory is made. *)
Theorem environment_checks_agree (w : world) (st : state) :
  let ready := env_set st "OPENAI_API_KEY" ∧ env_set st "SERPER_API_KEY" in
  let missing := missing_in st required_vars in
  (ready ↔ missing = [])
  ∧ (fst (tools_import st) = Ok tt ↔ ready)
  ∧ (fst (validate_environment st) = Ok tt ↔ ready)
  ∧ ((∃ st', main_startup w st = (Ok Serve, st')) ∨
     (∃ e st', main_startup w st = (Raised e, st')) ↔ ready)
  ∧ (∀ first rest,
       missing = first :: rest →
       tools_import st
       = (Raised (Exception ("Missing required environment variable: "
                               +:+ first)), st)
       ∧ validate_environment st
         = (Raised (Exception ("Missing required environment variables: "
                                 +:+ PyStr.join ", " missing)), st)
       ∧ main_startup w st
         = (Ok (Exit 1
                  ("Please set up your .env file with the required API keys:"
                     :: map (fun var => "  " +:+ var +:+ "=your_api_key_here")
                          missing)),
            record (LogError ("Missing required environment variables: "
                                +:+ PyStr.join ", " missing)) st)).
Proof.
  intros ready missing. subst ready.
  pose proof (missing_in_required st) as Hready. fold missing in Hready.
  unfold tools_import, validate_environment, main_startup, mbind, M_bind, bind.
  rewrite check_env_vars_spec, missing_env_vars_spec. fold missing.
  split; [symmetry; exact Hready|]. rewrite <- Hready.
  destruct missing as [|first rest]; simpl.
  - split; [tauto|]. split; [tauto|]. split; [|discriminate].
    split; [reflexivity|]. intros _.
    destruct (os_makedirs w "data" st) as [[[]|e] st1]; simpl; eauto.
  - split; [split; discriminate|]. split; [split; discriminate|]. split.
    + split; [|discriminate]. intros [(st' & [=])|(e & st' & [=])].
    + intros first' rest' [= <- <-]. repeat split.
Qed.

Lemma validate_environment_spec (st : state) :
  validate_environment st
  = (match missing_in st required_vars with
     | [] => Ok tt
     | _ :: _ =>
         Raised (Exception ("Missing required environment variables: "
                              +:+ PyStr.join ", " (missing_in st required_vars)))
     end, st).
Proof.
  unfold validate_environment, mbind, M_bind, bind.
  rewrite missing_env_vars_spec. now destruct (missing_in st required_vars).
Qed.

Lemma main_startup_ready (w : world) (st : state) :
  missing_in st required_vars = [] →
  ∀ outcome, fst (main_startup w st) = Ok outcome → outcome = Serve.
Proof.
  intros Hmiss outcome. unfold main_startup, mbind, M_bind, bind.
  rewrite missing_env_vars_spec, Hmiss.
  destruct (os_makedirs w "data" st) as [[[]|e] st1]; simpl;
    [now intros [= <-] | discriminate].
Qed.

(** X15.  The imports guard the start-up.  main.py runs the check of
    tools.py, then [validate_environment], then its own [__main__] block,
    on one environment.  After the first has passed, the second never
    raises, and the third never takes its [exit(1)] branch: whenever that
    sequence gets as far as an exit or the server, it is the server. *)
Theorem imports_guard_startup (w : world) (st : state) :
  fst ((tools_import;; validate_environment) st) = fst (tools_import st)
  ∧ ∀ outcome,
      fst ((tools_import;; validate_environment;; main_startup w) st)
      = Ok outcome →
      outcome = Serve.
Proof.
  unfold mbind, M_bind, bind. unfold tools_import.
  rewrite check_env_vars_spec.
  destruct (missing_in st required_vars) as [|first rest] eqn:Hmiss;
    cbv beta iota.
  - rewrite validate_environment_spec, Hmiss. cbv beta iota.
    split; [reflexivity|]. now apply main_startup_ready.
  - split; [reflexivity | discriminate].
Qed.

Lemma imports_guard_startup_witness :
  fst ((tools_import;; validate_environment)
         (mkState ∅ ∅ {["OPENAI_API_KEY" := "sk-1"; "SERPER_API_KEY" := "s-2"]} []))
  = fst (tools_import
           (mkState ∅ ∅ {["OPENAI_API_KEY" := "sk-1"; "SERPER_API_KEY" := "s-2"]} []))
  ∧ ∀ outcome,
      fst ((tools_import;; validate_environment;; main_startup (calm_world "0b5c"))
             (mkState ∅ ∅ {["OPENAI_API_KEY" := "sk-1"; "SERPER_API_KEY" := "s-2"]} []))
      = Ok outcome →
      outcome = Serve.
Proof.
  exact (imports_guard_startup (calm_world "0b5c")
           (mkState ∅ ∅ {["OPENAI_API_KEY" := "sk-1"; "SERPER_API_KEY" := "s-2"]} [])).
Defined.

Example startup_serves :
  fst ((tools_import;; validate_environment;; main_startup (calm_world "0b5c"))
         (mkState ∅ ∅ {["OPENAI_API_KEY" := "sk-1"; "SERPER_API_KEY" := "s-2"]} []))
  = Ok Serve.
Proof. vm_compute. reflexivity. Qed.

Example startup_exits :
  fst (main_startup (calm_world "0b5c")
         (mkState ∅ ∅ {["OPENAI_API_KEY" := ""]} []))
  = Ok (Exit 1 [ "Please set up your .env file with the required API keys:";
                 "  OPENAI_API_KEY=your_api_key_here";
                 "  SERPER_API_KEY=your_api_key_here" ]).
Proof. vm_compute. reflexivity. Qed.

(** X16.  A server that started reports a healthy environment.  On an
    environment on which the check of tools.py passes, [GET /health]
    reports both required variables as [true]. *)
Theorem health_after_startup (st : state) :
  fst (tools_import st) = Ok tt →
  ∃ r, fst (health_check st) = Ok r
       ∧ required_env_vars r !! "OPENAI_API_KEY" = Some true
       ∧ required_env_vars r !! "SERPER_API_KEY" = Some true.
Proof.
  unfold tools_import. rewrite check_env_vars_spec. simpl.
  unfold missing_in, required_vars. simpl.
  eexists. split; [reflexivity|]. simpl.
  rewrite lookup_insert_eq, lookup_insert_ne, lookup_insert_eq by discriminate.
  destruct (PyStr.truthy_opt (environ st !! "OPENAI_API_KEY"));
    destruct (PyStr.truthy_opt (environ st !! "SERPER_API_KEY"));
    simpl in *; try discriminate. split; reflexivity.
Qed.

Lemma health_after_startup_witness :
  ∃ r, fst (health_check
              (mkState ∅ ∅
                 {["OPENAI_API_KEY" := "sk-1"; "SERPER_API_KEY" := "s-2"]} []))
       = Ok r
       ∧ required_env_vars r !! "OPENAI_API_KEY" = Some true
       ∧ required_env_vars r !! "SERPER_API_KEY" = Some true.
Proof.
  apply (health_after_startup
           (mkState ∅ ∅
              {["OPENAI_API_KEY" := "sk-1"; "SERPER_API_KEY" := "s-2"]} [])).
  vm_compute. reflexivity.
Defined.

(** ** POST /analyze: the names the file type check accepts *)

Lemma endswith_iff (s suffix : string) :
  PyStr.endswith s suffix = true ↔ ∃ pre, s = pre +:+ suffix.
Proof.
  split.
  - induction s as [|c s IH].
    + change (PyStr.endswith "" suffix) with (String.eqb "" suffix || false).
      rewrite orb_false_r. intros H%String.eqb_eq. now exists "".
    + change (PyStr.endswith (String c s) suffix)
        with (String.eqb (String c s) suffix || PyStr.endswith s suffix).
      intros [H%String.eqb_eq|H]%orb_true_iff; [now exists ""|].
      destruct (IH H) as (pre & ->). now exists (String c pre).
  - intros (pre & ->). induction pre as [|c pre IH].
    + change ("" +:+ suffix) with suffix.
      destruct suffix as [|d suffix]; [reflexivity|].
      change (PyStr.endswith (String d suffix) (String d suffix))
        with (String.eqb (String d suffix) (String d suffix)
              || PyStr.endswith suffix (String d suffix)).
      now rewrite String.eqb_refl.
    + rewrite app_cons.
      change (PyStr.endswith (String c (pre +:+ suffix)) suffix)
        with (String.eqb (String c (pre +:+ suffix)) suffix
              || PyStr.endswith (pre +:+ suffix) suffix).
      rewrite IH. apply orb_true_r.
Qed.

Lemma lower_app (s t : string) :
  PyStr.lower (s +:+ t) = PyStr.lower s +:+ PyStr.lower t.
Proof.
  induction s as [|c s IH]; [reflexivity|].
  rewrite app_cons. simpl. now rewrite IH.
Qed.

Lemma lower_split (a b : string) :
  ∀ s, PyStr.lower s = a +:+ b →
       ∃ s1 s2, s = s1 +:+ s2 ∧ PyStr.lower s1 = a ∧ PyStr.lower s2 = b.
Proof.
  induction a as [|x a IH]; intros s H.
  - now exists "", s.
  - rewrite app_cons in H. destruct s as [|c s]; [discriminate|].
    simpl in H. injection H as Hc H.
    destruct (IH s H) as (s1 & s2 & -> & H1 & H2).
    exists (String c s1), s2. simpl. now rewrite Hc, H1.
Qed.

Ltac ascii_cases c :=
  destruct c as [[] [] [] [] [] [] [] []]; vm_compute;
  (split; [intros H; try discriminate H; auto | intros [H|H]; congruence]).

Lemma lower_char_p (c : ascii) :
  PyStr.lower_char c = "p"%char ↔ c = "p"%char ∨ c = "P"%char.
Proof. ascii_cases c. Qed.

Lemma lower_char_d (c : ascii) :
  PyStr.lower_char c = "d"%char ↔ c = "d"%char ∨ c = "D"%char.
Proof. ascii_cases c. Qed.

Lemma lower_char_f (c : ascii) :
  PyStr.lower_char c = "f"%char ↔ c = "f"%char ∨ c = "F"%char.
Proof. ascii_cases c. Qed.

Lemma lower_char_dot (c : ascii) :
  PyStr.lower_char c = "."%char ↔ c = "."%char ∨ c = "."%char.
Proof. ascii_cases c. Qed.

(** X17.  The names the file type check lets through are exactly those
    that end in a dot followed by [p] or [P], [d] or [D], [f] or [F]: the
    last four characters decide, in any mix of cases, and nothing else of
    the name or of the content is looked at. *)
Theorem pdf_name_iff (name : string) :
  PyStr.endswith (PyStr.lower name) ".pdf" = true
  ↔ ∃ stem c1 c2 c3,
      name = stem +:+ String "." (String c1 (String c2 (String c3 "")))
      ∧ (c1 = "p"%char ∨ c1 = "P"%char)
      ∧ (c2 = "d"%char ∨ c2 = "D"%char)
      ∧ (c3 = "f"%char ∨ c3 = "F"%char).
Proof.
  rewrite endswith_iff. split.
  - intros (pre & H). apply lower_split in H as (stem & ext & -> & _ & Hext).
    destruct ext as [|c0 [|c1 [|c2 [|c3 [|c4 ext]]]]]; try discriminate.
    simpl in Hext. injection Hext as H0 H1 H2 H3.
    apply lower_char_dot in H0 as [->| ->];
      (exists stem, c1, c2, c3; split; [reflexivity|];
       now rewrite <- lower_char_p, <- lower_char_d, <- lower_char_f).
  - intros (stem & c1 & c2 & c3 & -> & H1 & H2 & H3).
    exists (PyStr.lower stem). rewrite lower_app. f_equal. simpl.
    apply lower_char_p in H1. apply lower_char_d in H2. apply lower_char_f in H3.
    now rewrite H1, H2, H3.
Qed.

Example pdf_name_bare : PyStr.endswith (PyStr.lower ".PdF") ".pdf" = true.
Proof. reflexivity. Qed.

Example pdf_name_trailing_space :
  PyStr.endswith (PyStr.lower "report.pdf ") ".pdf" = false.
Proof. reflexivity. Qed.

(** ** POST /analyze: how often each step runs *)

Section Counting.
Context (p : event → bool).

Lemma at_most_weaken {A : Type} (n n' : nat) (m : M A) :
  emits_at_most n p m → (n ≤ n')%nat → emits_at_most n' p m.
Proof.
  intros H Hn st. destruct (H st) as (evs & E & Hc).
  exists evs. split; [exact E | lia].
Qed.

Lemma at_most_silent {A : Type} (m : M A) :
  (∀ st, log (snd (m st)) = log st) → emits_at_most 0 p m.
Proof.
  intros H st. exists []. rewrite H, app_nil_r. split; [reflexivity | simpl; lia].
Qed.

Lemma at_most_step {A : Type} (ev : event) (m : M A) :
  (∀ st, log (snd (m st)) = log st ++ [ev]) →
  emits_at_most (if p ev then 1 else 0) p m.
Proof.
  intros H st. exists [ev]. split; [apply H|].
  simpl. destruct (p ev); simpl; lia.
Qed.

Lemma at_most_bind {A B : Type} (a b : nat) (m : M A) (k : A → M B) :
  emits_at_most a p m → (∀ x, emits_at_most b p (k x)) →
  emits_at_most (a + b) p (m ≫= k).
Proof.
  intros Hm Hk st. unfold mbind, M_bind, bind.
  destruct (Hm st) as (e1 & E1 & C1).
  destruct (m st) as [[x|e] st1]; simpl in *.
  - destruct (Hk x st1) as (e2 & E2 & C2).
    exists (e1 ++ e2). rewrite E2, E1, app_assoc. split; [reflexivity|].
    rewrite List.filter_app, List.length_app. lia.
  - exists e1. split; [exact E1 | lia].
Qed.

Lemma at_most_try_except {A : Type} (a b : nat) (body : M A)
    (handler : exn → M A) :
  emits_at_most a p body → (∀ e, emits_at_most b p (handler e)) →
  emits_at_most (a + b) p (try_except body handler).
Proof.
  intros Hm Hk st. unfold try_except.
  destruct (Hm st) as (e1 & E1 & C1).
  destruct (body st) as [[x|e] st1]; simpl in *.
  - exists e1. split; [exact E1 | lia].
  - destruct (Hk e st1) as (e2 & E2 & C2).
    exists (e1 ++ e2). rewrite E2, E1, app_assoc. split; [reflexivity|].
    rewrite List.filter_app, List.length_app. lia.
Qed.

Lemma at_most_try_finally {A : Type} (a b : nat) (body : M A) (final : M unit) :
  emits_at_most a p body → emits_at_most b p final →
  emits_at_most (a + b) p (try_finally body final).
Proof.
  intros Hm Hk st. rewrite try_finally_state.
  destruct (Hm st) as (e1 & E1 & C1).
  destruct (Hk (snd (body st))) as (e2 & E2 & C2).
  exists (e1 ++ e2). rewrite E2, E1, app_assoc. split; [reflexivity|].
  rewrite List.filter_app, List.length_app. lia.
Qed.

Lemma at_most_emit (ev : event) :
  emits_at_most (if p ev then 1 else 0) p (emit ev).
Proof. now apply at_most_step. Qed.

Lemma at_most_os_makedirs (w : world) (path : string) :
  emits_at_most (if p (OsMakedirs path) then 1 else 0) p (os_makedirs w path).
Proof.
  apply at_most_step. intros st. unfold os_makedirs. now repeat case_match.
Qed.

Lemma at_most_open_wb (w : world) (path : string) :
  emits_at_most (if p (OsOpenWb path) then 1 else 0) p (open_wb w path).
Proof. apply at_most_step. intros st. unfold open_wb. now case_match. Qed.

Lemma at_most_f_write (w : world) (path : string) (content : list byte) :
  emits_at_most (if p (OsWrite path (length content)) then 1 else 0) p
    (f_write w path content).
Proof. apply at_most_step. intros st. unfold f_write. now case_match. Qed.

Lemma at_most_os_remove (w : world) (path : string) :
  emits_at_most (if p (OsRemove path) then 1 else 0) p (os_remove w path).
Proof. apply at_most_step. intros st. unfold os_remove. now case_match. Qed.

Lemma at_most_kickoff (w : world) (query file_path : string) :
  emits_at_most (if p (CrewKickoff query file_path) then 1 else 0) p
    (kickoff w query file_path).
Proof.
  apply at_most_step. intros st. unfold kickoff. simpl.
  now destruct (crew_kickoff w query file_path (files st)).
Qed.

End Counting.

Ltac at_most_zero :=
  eapply at_most_weaken; [apply at_most_silent; reflexivity | lia].

Ltac at_most_seq a b :=
  eapply at_most_weaken; [apply (at_most_bind _ a b) | lia].

Lemma run_crew_at_most (p : event → bool) (w : world) (query file_path : string) :
  (∀ m, p (LogInfo m) = false) → (∀ m, p (LogError m) = false) →
  emits_at_most (if p (CrewKickoff (crew_query query) file_path) then 1 else 0)
    p (run_crew w query file_path).
Proof.
  intros Hi He. unfold run_crew.
  set (k := (if p (CrewKickoff (crew_query query) file_path) then 1 else 0)%nat).
  eapply at_most_weaken; [apply (at_most_try_except p k 0) | lia].
  - at_most_seq 0%nat k; [at_most_zero|]. intros found.
    destruct (negb found); [at_most_zero|].
    at_most_seq 0%nat k.
    { eapply at_most_weaken; [apply at_most_emit | rewrite Hi; lia]. }
    intros _. at_most_seq k 0%nat; [apply at_most_kickoff|]. intros result.
    at_most_seq 0%nat 0%nat; [|intros _; at_most_zero].
    eapply at_most_weaken; [apply at_most_emit | rewrite Hi; lia].
  - intros e. at_most_seq 0%nat 0%nat; [|intros _; at_most_zero].
    eapply at_most_weaken; [apply at_most_emit | rewrite He; lia].
Qed.

(** A bound for every control path of the handler, for a test that no
    log record and no [makedirs] passes. *)
Lemma analyze_document_at_most (p : event → bool) (w : world)
    (file : UploadFile) (query : option string) :
  (∀ m, p (LogInfo m) = false) → (∀ m, p (LogWarning m) = false) →
  (∀ m, p (LogError m) = false) → (∀ d, p (OsMakedirs d) = false) →
  emits_at_most
    ((if p (OsOpenWb (storage_path (uuid4 w))) then 1 else 0)
     + (if p (OsWrite (storage_path (uuid4 w)) (length (read file)))
        then 1 else 0)
     + (if p (CrewKickoff (crew_query (clean_query query))
                (storage_path (uuid4 w))) then 1 else 0)
     + (if p (OsRemove (storage_path (uuid4 w))) then 1 else 0))
    p (analyze_document w file query).
Proof.
  intros Hi Hw He Hm. unfold analyze_document.
  set (path := storage_path (uuid4 w)).
  set (o := (if p (OsOpenWb path) then 1 else 0)%nat).
  set (wr := (if p (OsWrite path (length (read file))) then 1 else 0)%nat).
  set (k := (if p (CrewKickoff (crew_query (clean_query query)) path)
             then 1 else 0)%nat).
  set (r := (if p (OsRemove path) then 1 else 0)%nat).
  destruct (negb _); [at_most_zero|].
  apply (at_most_try_finally p (o + wr + k) r).
  - eapply at_most_weaken; [apply (at_most_try_except p (o + wr + k) 0) | lia].
    + unfold analyze_try.
      at_most_seq 0%nat (o + wr + k)%nat.
      { eapply at_most_weaken; [apply at_most_os_makedirs | rewrite Hm; lia]. }
      intros _. at_most_seq 0%nat (o + wr + k)%nat.
      { eapply at_most_weaken; [apply at_most_emit | rewrite Hi; lia]. }
      intros _. at_most_seq (o + wr)%nat k.
      * unfold save_upload. at_most_seq o wr; [apply at_most_open_wb|].
        intros _. destruct (Nat.eqb _ _); [at_most_zero|].
        at_most_seq wr 0%nat; [apply at_most_f_write|].
        intros _. at_most_zero.
      * intros content. at_most_seq 0%nat k.
        { eapply at_most_weaken; [apply at_most_emit | rewrite Hi; lia]. }
        intros _. at_most_seq 0%nat k; [at_most_zero|].
        intros _. at_most_seq k 0%nat; [now apply run_crew_at_most|].
        intros result. at_most_seq 0%nat 0%nat; [|intros _; at_most_zero].
        eapply at_most_weaken; [apply at_most_emit | rewrite Hi; lia].
    + intros e. unfold analyze_except.
      destruct e; (at_most_seq 0%nat 0%nat; [|intros _; at_most_zero];
                   eapply at_most_weaken; [apply at_most_emit | rewrite He; lia]).
  - unfold cleanup. at_most_seq 0%nat r; [at_most_zero|]. intros [|].
    + eapply at_most_weaken; [apply (at_most_try_except p r 0) | lia].
      * at_most_seq r 0%nat; [apply at_most_os_remove|]. intros _.
        eapply at_most_weaken; [apply at_most_emit | rewrite Hi; lia].
      * intros e.
        eapply at_most_weaken; [apply at_most_emit | rewrite Hw; lia].
    + at_most_zero.
Qed.

(** X18.  Each step runs at most once.  Among the events of one request
    there is at most one [open], at most one [write], at most one run of
    the pipeline and at most one [os.remove], whatever the upload, the
    world and the outcome: the handler never retries and never runs the
    pipeline twice. *)
Theorem each_step_at_most_once (w : world) (file : UploadFile)
    (query : option string) :
  emits_at_most 1 is_open (analyze_document w file query)
  ∧ emits_at_most 1 is_write (analyze_document w file query)
  ∧ emits_at_most 1 is_kickoff (analyze_document w file query)
  ∧ emits_at_most 1 is_remove (analyze_document w file query).
Proof.
  repeat split;
    (eapply at_most_weaken;
     [apply analyze_document_at_most; reflexivity | simpl; lia]).
Qed.

(** ** POST /analyze: where the analysis comes from *)

Lemma run_crew_ok_inv (w : world) (query file_path report : string)
    (st st' : state) :
  run_crew w query file_path st = (Ok report, st') →
  ∃ f', crew_kickoff w (crew_query query) file_path (files st)
        = (Ok report, f').
Proof.
  unfold run_crew, try_except, mbind, M_bind, bind, os_path_exists, kickoff,
    logger_info, logger_error, emit.
  destruct (path_exists st file_path); simpl; [|discriminate].
  destruct (crew_kickoff w (crew_query query) file_path (files st))
    as [[rep|e] f']; simpl; [|discriminate].
  intros [= <- _]. eauto.
Qed.

Lemma analyze_try_ok_inv (w : world) (file : UploadFile) (query : option string)
    (file_id file_path : string) (st st' : state) (r : AnalysisResult) :
  analyze_try w file query file_id file_path st = (Ok r, st') →
  ∃ st1 report st2,
    run_crew w (clean_query query) file_path st1 = (Ok report, st2)
    ∧ r = mkResult "success" (clean_query query) report (filename file)
            (length (read file)) file_id
    ∧ files st1
      = other_processes w
          (<[file_path := read file]> (<[file_path := []]> (files st))).
Proof.
  unfold analyze_try, save_upload, mbind, M_bind, bind, os_makedirs, open_wb,
    f_write, yield_to_others, logger_info, emit, ret.
  simpl. intros H.
  repeat (case_match; simplify_eq/=); eauto 10.
Qed.

(** X19.  A success answer is the pipeline's answer.  Whenever
    [POST /analyze] answers with success, the pipeline was run on the
    echoed query and on the path built from [processing_id], and
    [analysis] is the report that run returned.  If no other process
    touches the disk, the file at that path held exactly the uploaded
    bytes when the pipeline started. *)
Theorem success_is_the_pipeline_report (w : world) (file : UploadFile)
    (field : option string) (st : state) (r : AnalysisResult) :
  fst (post_analyze w file field st) = Success r →
  ∃ disk f',
    crew_kickoff w (query r) (storage_path (processing_id r)) disk
    = (Ok (analysis r), f')
    ∧ ((∀ f, other_processes w f = f) →
       disk !! storage_path (processing_id r) = Some (read file)).
Proof.
  intros (st' & H)%post_analyze_success.
  pose proof (analyze_document_returns _ _ _ _ _ _ H) as (_ & _ & Hpdf).
  rewrite (analyze_document_pdf _ _ _ _ Hpdf) in H.
  unfold try_finally, try_except in H.
  destruct (analyze_try _ _ _ _ _ st) as [[a|e] st1] eqn:Htry.
  - destruct (cleanup_ok w (storage_path (uuid4 w)) st1) as (st2 & E).
    rewrite E in H. injection H as -> _.
    apply analyze_try_ok_inv in Htry as (s1 & report & s2 & Hrun & -> & Hf).
    apply run_crew_ok_inv in Hrun as (f' & Hk).
    rewrite crew_query_clean_query in Hk. simpl.
    exists (files s1), f'. split; [exact Hk|].
    intros Hquiet. rewrite Hf, Hquiet. apply lookup_insert_eq.
  - destruct (analyze_except_handled w e st1) as (st2 & E). rewrite E in H.
    destruct (cleanup_ok w (storage_path (uuid4 w)) st2) as (st3 & E').
    rewrite E' in H. discriminate.
Qed.

Lemma success_is_the_pipeline_report_witness :
  ∃ disk f',
    crew_kickoff (calm_world "0b5c")
      (query (mkResult "success" "What is the margin?"
                "Report on: What is the margin?" "report.pdf" 4 "0b5c"))
      (storage_path
         (processing_id (mkResult "success" "What is the margin?"
                           "Report on: What is the margin?" "report.pdf" 4
                           "0b5c")))
      disk
    = (Ok (analysis (mkResult "success" "What is the margin?"
                       "Report on: What is the margin?" "report.pdf" 4
                       "0b5c")), f')
    ∧ ((∀ f, other_processes (calm_world "0b5c") f = f) →
       disk !! storage_path
                 (processing_id (mkResult "success" "What is the margin?"
                                   "Report on: What is the margin?"
                                   "report.pdf" 4 "0b5c"))
       = Some (read sample_pdf)).
Proof.
  apply (success_is_the_pipeline_report (calm_world "0b5c") sample_pdf
           (Some "  What is the margin? ") empty_disk).
  vm_compute. reflexivity.
Defined.

(** ** The text extractor: page numbers *)

Lemma read_pages_skip_blank (w : world) (blanks rest : list (result (result string))) :
  Forall blank_page blanks →
  ∀ (page_num : nat) (acc : string) (st : state),
    read_pages w page_num (blanks ++ rest) acc st
    = read_pages w (length blanks + page_num) rest acc st.
Proof.
  induction 1 as [|next blanks Hnext Hblanks IH]; intros page_num acc st;
    [reflexivity|].
  destruct next as [[text|e]|e]; try contradiction. simpl in Hnext.
  simpl. unfold mbind, M_bind, bind, try_except, next_page, extract_text.
  rewrite Hnext. simpl. rewrite IH. now rewrite Nat.add_succ_r.
Qed.

(** X20.  Page numbers are positions.  Pages without text add nothing to
    the result but are counted: when the only page with text comes after
    [n] blank pages, the extractor returns that text under the marker of
    page [n + 1]. *)
Theorem blank_pages_are_counted (w : world) (path : string) (st : state)
    (blanks : list (result (result string))) (text : string) :
  path_exists st path = true →
  pdf_reader w path = Ok (blanks ++ [Ok (Ok text)]) →
  Forall blank_page blanks →
  PyStr.strip text ≠ "" →
  fst (read_data_tool w path st)
  = Ok (PyStr.strip
          (PyStr.replace (nl +:+ nl +:+ nl) (nl +:+ nl)
             (nl +:+ "--- Page " +:+ pretty (length blanks + 1)%nat
                +:+ " ---" +:+ nl +:+ text +:+ nl))).
Proof.
  intros Hex Hpdf Hblanks Htext.
  rewrite read_data_tool_cases, Hex, Hpdf.
  rewrite (read_pages_skip_blank w blanks _ Hblanks), Nat.add_0_r.
  simpl. unfold mbind, M_bind, bind, try_except, next_page, extract_text.
  apply truthy_true in Htext as Htruthy. rewrite Htruthy. simpl.
  change ("" +:+ nl +:+ "--- Page " +:+ pretty (length blanks + 1)%nat
            +:+ " ---" +:+ nl +:+ text +:+ nl)
    with (nl +:+ "--- Page " +:+ pretty (length blanks + 1)%nat
            +:+ " ---" +:+ nl +:+ text +:+ nl).
  reflexivity.
Qed.

Lemma blank_pages_are_counted_witness :
  fst (read_data_tool
         (mkWorld "0b5c" None None None None (fun f => f)
            (fun q p f => (Ok "report", f))
            (fun _ => Ok ([Ok (Ok ""); Ok (Ok "  ")] ++ [Ok (Ok "Revenue 10")]))
            (fun sc d => d))
         "data/sample.pdf"
         (mkState {["data/sample.pdf" := [x25]]} {["data"]} ∅ []))
  = Ok (PyStr.strip
          (PyStr.replace (nl +:+ nl +:+ nl) (nl +:+ nl)
             (nl +:+ "--- Page "
                +:+ pretty (length [Ok (Ok ""); Ok (Ok "  ")] + 1)%nat
                +:+ " ---" +:+ nl +:+ "Revenue 10" +:+ nl))).
Proof.
  apply (blank_pages_are_counted
           (mkWorld "0b5c" None None None None (fun f => f)
              (fun q p f => (Ok "report", f))
              (fun _ => Ok ([Ok (Ok ""); Ok (Ok "  ")] ++ [Ok (Ok "Revenue 10")]))
              (fun sc d => d))
           "data/sample.pdf"
           (mkState {["data/sample.pdf" := [x25]]} {["data"]} ∅ [])
           [Ok (Ok ""); Ok (Ok "  ")] "Revenue 10").
  - reflexivity.
  - reflexivity.
  - repeat constructor.
  - discriminate.
Defined.

Example blank_pages_are_counted_run :
  fst (read_data_tool
         (mkWorld "0b5c" None None None None (fun f => f)
            (fun q p f => (Ok "report", f))
            (fun _ => Ok [Ok (Ok ""); Ok (Ok "  "); Ok (Ok "Revenue 10")])
            (fun sc d => d))
         "data/sample.pdf"
         (mkState {["data/sample.pdf" := [x25]]} {["data"]} ∅ []))
  = Ok ("--- Page 3 ---" +:+ nl +:+ "Revenue 10").
Proof. vm_compute. reflexivity. Qed.
